(** * Strategic company analyzer: collection pipeline and store

    A shallow embedding of the data-collection pipeline
    ([data_collector.py]), of the SQLite store ([database_manager.py]) and
    of the per-symbol body of the batch driver ([app.py]), with the
    properties of the specification stated and settled against it.

    Conventions of the embedding.
    - A Python value is a [pyval]; a [dict] with string keys is a
      [gmap string pyval].
    - A Python [float] is modelled by the exact rational it denotes, plus
      the two infinities and NaN.  The range of a double is modelled (a
      result beyond it overflows, one too small for it is zero), its 53-bit
      rounding and the sign of zero are not.
    - Strings are sequences of ASCII characters.
    - Code that can raise returns a [result]; a [try]/[except] is a match
      on it that names the exceptions it catches. *)

From Stdlib Require Import ZArith QArith Qabs Ascii String List Bool Lia.
From stdpp Require Import base option gmap strings list fin_maps.

#[local] Set Warnings "-register-all".

Local Open Scope Z_scope.
Local Open Scope string_scope.

(** ** Exceptions *)

Module Exc.

Inductive exn : Set :=
| ValueError
| TypeError
| OverflowError
| AttributeError
| KeyError
| NetworkError      (* anything raised by the HTTP or provider client *)
| DatabaseError.    (* sqlite3.Error and its subclasses *)

Inductive result (A : Type) : Type :=
| Ok (a : A)
| Raise (e : exn).
Arguments Ok {A} a.
Arguments Raise {A} e.

Definition bind {A B} (r : result A) (k : A -> result B) : result B :=
  match r with
  | Ok a => k a
  | Raise e => Raise e
  end.

(** [except (ValueError, TypeError)]: only these two are caught. *)
Definition is_value_or_type_error (e : exn) : bool :=
  match e with
  | ValueError | TypeError => true
  | _ => false
  end.

(** [try: body except: handler] (a bare [except], or [except Exception]) *)
Definition catch_all {A} (body handler : result A) : result A :=
  match body with
  | Ok a => Ok a
  | Raise _ => handler
  end.

(** [try: body except (E1, E2): handler]: anything else passes through. *)
Definition catch {A} (caught : exn -> bool) (body handler : result A)
  : result A :=
  match body with
  | Ok a => Ok a
  | Raise e => if caught e then handler else Raise e
  end.

Definition returns {A} (r : result A) : Prop := exists a, r = Ok a.

End Exc.
Export Exc.

#[global] Instance result_ret : MRet result := fun _ a => Ok a.
#[global] Instance result_bind : MBind result := fun _ _ k r => bind r k.

(** ** Python strings *)

Module PyStr.

Definition code (c : ascii) : N := N_of_ascii c.

Definition isdigit (c : ascii) : bool :=
  ((48 <=? code c) && (code c <=? 57))%N.

(** [str.isspace] on ASCII: tab, LF, VT, FF, CR, FS, GS, RS, US, space. *)
Definition isspace (c : ascii) : bool :=
  (((9 <=? code c) && (code c <=? 13)) ||
   ((28 <=? code c) && (code c <=? 32)))%N.

Definition upper_char (c : ascii) : ascii :=
  if ((97 <=? code c) && (code c <=? 122))%N
  then ascii_of_N (code c - 32)
  else c.

Fixpoint upper (s : string) : string :=
  match s with
  | EmptyString => EmptyString
  | String c s' => String (upper_char c) (upper s')
  end.

Fixpoint lstrip (s : string) : string :=
  match s with
  | String c s' => if isspace c then lstrip s' else s
  | EmptyString => EmptyString
  end.

(** Drops the trailing white space: a character is kept when something that
    is kept follows it, or when it is not white space itself. *)
Fixpoint rstrip (s : string) : string :=
  match s with
  | EmptyString => EmptyString
  | String c s' =>
      match rstrip s' with
      | EmptyString => if isspace c then EmptyString else String c EmptyString
      | r => String c r
      end
  end.

Definition strip (s : string) : string := rstrip (lstrip s).

(** The white space [float] and [int] skip around an ASCII text: the C
    [isspace], tab to CR and the space.  Unlike [str.strip] it does not
    take the separators FS, GS, RS and US. *)
Definition c_isspace (c : ascii) : bool :=
  (((9 <=? code c) && (code c <=? 13)) || (code c =? 32))%N.

Fixpoint c_lstrip (s : string) : string :=
  match s with
  | String c s' => if c_isspace c then c_lstrip s' else s
  | EmptyString => EmptyString
  end.

Fixpoint c_rstrip (s : string) : string :=
  match s with
  | EmptyString => EmptyString
  | String c s' =>
      match c_rstrip s' with
      | EmptyString => if c_isspace c then EmptyString else String c EmptyString
      | r => String c r
      end
  end.

Definition c_strip (s : string) : string := c_rstrip (c_lstrip s).

(** [c in s] for a one-character [c]. *)
Fixpoint contains (c : ascii) (s : string) : bool :=
  match s with
  | EmptyString => false
  | String d s' => Ascii.eqb c d || contains c s'
  end.

(** [s.replace(c, '')] for a one-character [c]. *)
Fixpoint remove (c : ascii) (s : string) : string :=
  match s with
  | EmptyString => EmptyString
  | String d s' => if Ascii.eqb c d then remove c s' else String d (remove c s')
  end.

(** [s[:n]] *)
Fixpoint take (n : nat) (s : string) : string :=
  match n, s with
  | S n', String c s' => String c (take n' s')
  | _, _ => EmptyString
  end.

(** [sep.join(parts)] *)
Fixpoint join (sep : string) (parts : list string) : string :=
  match parts with
  | [] => EmptyString
  | [p] => p
  | p :: rest => p +:+ sep +:+ join sep rest
  end.

Fixpoint str_forall (p : ascii -> bool) (s : string) : bool :=
  match s with
  | EmptyString => true
  | String c s' => p c && str_forall p s'
  end.

Fixpoint replicate_char (n : nat) (c : ascii) : string :=
  match n with
  | O => EmptyString
  | S n' => String c (replicate_char n' c)
  end.

End PyStr.

(** ** Python floats *)

Module PyFloat.
Import PyStr.

Inductive pyfloat : Set :=
| FNum (q : Q)              (* a finite value *)
| FInf (negative : bool)
| FNan.

(** The first magnitude that no longer rounds to a finite double:
    2^1024 - 2^970, half an ulp above the largest double. *)
Definition overflow_threshold : Z := 2 ^ 1024 - 2 ^ 970.

Definition out_of_range (q : Q) : bool :=
  Qle_bool (inject_Z overflow_threshold) (Qabs q).

Definition is_negative (q : Q) : bool := (Qnum q <? 0)%Z.

(** The largest magnitude that rounds to zero: 2^-1075, half the smallest
    positive double. *)
Definition underflow_threshold : Q := Qmake 1 (2 ^ 1075).

Definition underflows (q : Q) : bool := Qle_bool (Qabs q) underflow_threshold.

(** A real result brought back into the doubles: the infinity of its sign
    when it is out of range, zero when it is too small for a double, and
    otherwise the value itself, reduced to lowest terms. *)
Definition fnum (q : Q) : pyfloat :=
  if out_of_range q then FInf (is_negative q)
  else if underflows q then FNum 0
  else FNum (Qred q).

Definition is_zero (q : Q) : bool := Qeq_bool q 0.

(** [a * b] on floats (never raises). *)
Definition fmul (a b : pyfloat) : pyfloat :=
  match a, b with
  | FNan, _ | _, FNan => FNan
  | FNum x, FNum y => fnum (x * y)
  | FInf s, FNum y | FNum y, FInf s =>
      if is_zero y then FNan else FInf (xorb s (is_negative y))
  | FInf s, FInf t => FInf (xorb s t)
  end.

(** [x == y] on floats: NaN equals nothing. *)
Definition feqb (a b : pyfloat) : bool :=
  match a, b with
  | FNum x, FNum y => Qeq_bool x y
  | FInf s, FInf t => Bool.eqb s t
  | _, _ => false
  end.

(** [bool(x)]: every float but zero is true. *)
Definition ftruthy (a : pyfloat) : bool :=
  match a with
  | FNum x => negb (is_zero x)
  | _ => true
  end.

(** *** Reading a float from text: the grammar of [float(str)]

    floatvalue ::= [sign] (floatnumber | "inf" | "infinity" | "nan")
    floatnumber ::= ([digitpart] "." digitpart | digitpart ["."]) [exponent]
    digitpart ::= digit (["_"] digit)*
    exponent ::= "e" [sign] digitpart
    in any letter case, with C white space allowed on both ends. *)

Definition digit_value (c : ascii) : Z := Z.of_N (code c) - 48.

Definition digits_value (ds : list ascii) : Z :=
  fold_left (fun acc c => 10 * acc + digit_value c) ds 0.

(** The digits of the longest [digit (["_"] digit)*] continuation, and the
    rest of the text. *)
Fixpoint digit_run (s : string) : list ascii * string :=
  match s with
  | String c s' =>
      if isdigit c then
        let '(ds, r) := digit_run s' in (c :: ds, r)
      else if Ascii.eqb c "_" then
        match s' with
        | String d _ => if isdigit d then digit_run s' else ([], s)
        | EmptyString => ([], s)
        end
      else ([], s)
  | EmptyString => ([], EmptyString)
  end.

Definition digitpart (s : string) : option (list ascii * string) :=
  match s with
  | String c _ => if isdigit c then Some (digit_run s) else None
  | EmptyString => None
  end.

(** The text after a leading [c], when there is one. *)
Definition after (c : ascii) (s : string) : option string :=
  match s with
  | String d r => if Ascii.eqb c d then Some r else None
  | EmptyString => None
  end.

Definition read_sign (s : string) : bool * string :=
  match after "-" s, after "+" s with
  | Some r, _ => (true, r)
  | None, Some r => (false, r)
  | None, None => (false, s)
  end.

(** The mantissa as an integer, the number of digits after the point, and
    the rest of the text. *)
Definition read_number (s : string) : option (Z * nat * string) :=
  match digitpart s with
  | Some (ip, r) =>
      match after "." r with
      | Some r' =>
          match digitpart r' with
          | Some (fp, r'') => Some (digits_value (ip ++ fp), length fp, r'')
          | None => Some (digits_value ip, O, r')
          end
      | None => Some (digits_value ip, O, r)
      end
  | None =>
      match after "." s with
      | Some r' =>
          match digitpart r' with
          | Some (fp, r'') => Some (digits_value fp, length fp, r'')
          | None => None
          end
      | None => None
      end
  end.

(** [m * 10^e] as a rational. *)
Definition scale10 (m e : Z) : Q :=
  if (0 <=? e)%Z then inject_Z (m * 10 ^ e)
  else Qmake m (Z.to_pos (10 ^ (- e))).

Definition signed (neg : bool) (z : Z) : Z := if neg then - z else z.

(** The exponent after the mantissa: nothing, or [E], a sign and digits up
    to the end of the text. *)
Definition read_exponent (s : string) : option Z :=
  match s with
  | EmptyString => Some 0
  | _ =>
      match after "E" s with
      | Some r =>
          let '(eneg, r1) := read_sign r in
          match digitpart r1 with
          | Some (ds, EmptyString) => Some (signed eneg (digits_value ds))
          | _ => None
          end
      | None => None
      end
  end.

Definition float_of_string (s : string) : result pyfloat :=
  let '(neg, body) := read_sign (upper (c_strip s)) in
  if String.eqb body "INF" || String.eqb body "INFINITY" then Ok (FInf neg)
  else if String.eqb body "NAN" then Ok FNan
  else
    match read_number body with
    | Some (m, k, r) =>
        match read_exponent r with
        | Some e => Ok (fnum (scale10 (signed neg m) (e - Z.of_nat k)))
        | None => Raise ValueError
        end
    | None => Raise ValueError
    end.

(** [float(n)] for an [int]: the only conversion that can overflow. *)
Definition float_of_int (z : Z) : result pyfloat :=
  if (overflow_threshold <=? Z.abs z)%Z then Raise OverflowError
  else Ok (FNum (inject_Z z)).

(** The literals the collector multiplies by. *)
Definition f1e12 : pyfloat := FNum (inject_Z (10 ^ 12)).
Definition f1e9 : pyfloat := FNum (inject_Z (10 ^ 9)).
Definition f1e6 : pyfloat := FNum (inject_Z (10 ^ 6)).

End PyFloat.

(** ** Python values *)

Module PyVal.
Import PyStr PyFloat.

Inductive pyval : Type :=
| VNone
| VBool (b : bool)
| VInt (z : Z)
| VFloat (f : pyfloat)
| VStr (s : string)
| VList (items : list pyval)
| VDict (entries : list (string * pyval)).

(** [bool(v)] *)
Definition truthy (v : pyval) : bool :=
  match v with
  | VNone => false
  | VBool b => b
  | VInt z => negb (z =? 0)%Z
  | VFloat f => ftruthy f
  | VStr s => negb (String.eqb s "")
  | VList items => match items with [] => false | _ => true end
  | VDict entries => match entries with [] => false | _ => true end
  end.

(** A number as a float, for comparisons between numbers ([bool] is an
    [int] in Python). *)
Definition as_number (v : pyval) : option pyfloat :=
  match v with
  | VBool b => Some (FNum (inject_Z (if b then 1 else 0)))
  | VInt z => Some (FNum (inject_Z z))
  | VFloat f => Some f
  | _ => None
  end.

(** [v == w] where [w] is a number or a string, the only right-hand sides
    the code compares with. *)
Definition py_eqb (v w : pyval) : bool :=
  match as_number v, as_number w with
  | Some a, Some b => feqb a b
  | _, _ =>
      match v, w with
      | VStr s, VStr t => String.eqb s t
      | VNone, VNone => true
      | _, _ => false
      end
  end.

(** [v in ws] *)
Definition py_in (v : pyval) (ws : list pyval) : bool :=
  existsb (py_eqb v) ws.

(** [float(v)] *)
Definition py_float (v : pyval) : result pyfloat :=
  match v with
  | VNone => Raise TypeError
  | VBool b => Ok (FNum (inject_Z (if b then 1 else 0)))
  | VInt z => float_of_int z
  | VFloat f => Ok f
  | VStr s => float_of_string s
  | VList _ | VDict _ => Raise TypeError
  end.

(** [int(s)] for a [str]: an optional sign and one digit part. *)
Definition int_of_string (s : string) : result Z :=
  let '(neg, body) := read_sign (c_strip s) in
  match digitpart body with
  | Some (ds, EmptyString) => Ok (signed neg (digits_value ds))
  | _ => Raise ValueError
  end.

(** [int(v)]: a float is truncated towards zero. *)
Definition py_int (v : pyval) : result Z :=
  match v with
  | VNone => Raise TypeError
  | VBool b => Ok (if b then 1 else 0)
  | VInt z => Ok z
  | VFloat (FNum q) => Ok (Z.quot (Qnum q) (Z.pos (Qden q)))
  | VFloat (FInf _) => Raise OverflowError
  | VFloat FNan => Raise ValueError
  | VStr s => int_of_string s
  | VList _ | VDict _ => Raise TypeError
  end.

(** [d.get(key, default)] *)
Definition dict_get (d : gmap string pyval) (key : string) (default : pyval)
  : pyval :=
  match d !! key with
  | Some v => v
  | None => default
  end.

(** [len(v)] *)
Definition py_len (v : pyval) : result nat :=
  match v with
  | VStr s => Ok (String.length s)
  | VList items => Ok (length items)
  | VDict entries => Ok (length entries)
  | _ => Raise TypeError
  end.

End PyVal.

(** ** data_collector.py *)

Module Collector.
Import PyStr PyFloat PyVal.

(** What [yf.Ticker(symbol).info] gives is a
    [result (option (gmap string pyval))]: an exception, [None], or a bag. *)

(** What the scraper sees of the quote page.  [price_element] is the text
    of the [fin-streamer] element with [data-field = regularMarketPrice]
    when [soup.find] finds one; [market_cap_elements] are the texts of the
    [td] elements [soup.find_all] returns, in document order. *)
Inductive http_outcome : Type :=
| RequestFailed
| Response (status_code : Z) (price_element : option string)
           (market_cap_elements : list string).

(** *** _safe_get_number *)

Definition _safe_get_number (info : gmap string pyval) (key : string)
    (default : pyval) : result pyval :=
  catch is_value_or_type_error
    (let value := dict_get info key default in
     match value with
     | VNone => Ok default
     | _ => f ← py_float value; Ok (VFloat f)
     end)
    (Ok default).

(** *** _format_location *)

Definition as_str (v : pyval) : result string :=
  match v with
  | VStr s => Ok s
  | _ => Raise TypeError
  end.

(** [sep.join(parts)]: a part that is not a [str] is a [TypeError]. *)
Fixpoint str_join_parts (parts : list pyval) : result (list string) :=
  match parts with
  | [] => Ok []
  | p :: rest => s ← as_str p; ss ← str_join_parts rest; Ok (s :: ss)
  end.

Definition py_join (sep : string) (parts : list pyval) : result pyval :=
  ss ← str_join_parts parts; Ok (VStr (join sep ss)).

Definition _format_location (info : gmap string pyval) : result pyval :=
  catch_all
    (let city := dict_get info "city" (VStr "") in
     let state := dict_get info "state" (VStr "") in
     let country := dict_get info "country" (VStr "") in
     let parts := List.filter truthy [city; state; country] in
     if negb (Nat.eqb (length parts) 0) then py_join ", " parts
     else Ok (VStr "N/A"))
    (Ok (VStr "N/A")).

(** *** _get_description *)

(** [v[:n]] *)
Definition py_slice_to (n : nat) (v : pyval) : result pyval :=
  match v with
  | VStr s => Ok (VStr (PyStr.take n s))
  | VList items => Ok (VList (List.firstn n items))
  | _ => Raise TypeError
  end.

(** [v + w] on sequences *)
Definition py_concat (v w : pyval) : result pyval :=
  match v, w with
  | VStr s, VStr t => Ok (VStr (s +:+ t))
  | VList a, VList b => Ok (VList (a ++ b))
  | _, _ => Raise TypeError
  end.

Definition _get_description (info : gmap string pyval) : result pyval :=
  catch_all
    (let desc := dict_get info "longBusinessSummary" (VStr "") in
     if truthy desc then
       n ← py_len desc;
       if (500 <? n)%nat then
         head ← py_slice_to 500 desc; py_concat head (VStr "...")
       else Ok desc
     else Ok (dict_get info "description" (VStr "N/A")))
    (Ok (VStr "N/A")).

(** *** _parse_market_value *)

(** [value_str.strip().upper().replace('$', '').replace(',', '')] *)
Definition normalise (value_str : string) : string :=
  remove "," (remove "$" (upper (strip value_str))).

Definition _parse_market_value (value_str : string) : result pyval :=
  catch_all
    (let value_str := normalise value_str in
     if contains "T" value_str then
       f ← float_of_string (remove "T" value_str); Ok (VFloat (fmul f f1e12))
     else if contains "B" value_str then
       f ← float_of_string (remove "B" value_str); Ok (VFloat (fmul f f1e9))
     else if contains "M" value_str then
       f ← float_of_string (remove "M" value_str); Ok (VFloat (fmul f f1e6))
     else
       f ← float_of_string value_str; Ok (VFloat f))
    (Ok (VInt 0)).

(** *** scrape_yahoo_finance_safe *)

Definition nonempty (s : string) : bool := negb (String.eqb s "").

Definition scrape_price (price_element : option string)
    (data : gmap string pyval) : gmap string pyval :=
  match price_element with
  | Some text =>
      if nonempty text then
        match float_of_string (remove "," text) with
        | Ok f => <["current_price" := VFloat f]> data
        | Raise _ => data                       (* except: pass *)
        end
      else data
  | None => data
  end.

(** The loop stops at the first element with a text. *)
Fixpoint scrape_market_cap (elements : list string)
    (data : gmap string pyval) : gmap string pyval :=
  match elements with
  | [] => data
  | text :: rest =>
      if nonempty text then
        match _parse_market_value text with
        | Ok v => <["market_cap" := v]> data
        | Raise _ => data                       (* except: pass *)
        end
      else scrape_market_cap rest data
  end.

Definition scrape_yahoo_finance_safe (page : http_outcome)
  : result (gmap string pyval) :=
  catch_all
    match page with
    | RequestFailed => Raise NetworkError
    | Response status_code price_element market_cap_elements =>
        if negb (status_code =? 200)%Z then Ok ∅
        else
          Ok (scrape_market_cap market_cap_elements
                (scrape_price price_element ∅))
    end
    (Ok ∅).

(** *** get_company_basic_info *)

(** The unset sentinels of the merge: [[0, 'N/A', '']]. *)
Definition sentinels : list pyval := [VInt 0; VStr "N/A"; VStr ""].

(** One turn of [for key, value in scraped.items()]. *)
Definition merge_item (company_data : gmap string pyval)
    (item : string * pyval) : gmap string pyval :=
  let '(key, value) := item in
  let current := dict_get company_data key VNone in
  if truthy value && (negb (truthy current) || py_in current sentinels)
  then <[key := value]> company_data
  else company_data.

Definition merge_scraped (company_data scraped : gmap string pyval)
  : gmap string pyval :=
  foldl merge_item company_data (map_to_list scraped).

(** The dict literal of the primary profile; [now] is
    [datetime.now().strftime('%Y-%m-%d %H:%M:%S')]. *)
Definition primary_profile (now symbol : string) (info : gmap string pyval)
  : result (gmap string pyval) :=
  let company_name :=
    dict_get info "longName" (dict_get info "shortName" (VStr symbol)) in
  market_cap ← _safe_get_number info "marketCap" (VInt 0);
  enterprise_value ← _safe_get_number info "enterpriseValue" (VInt 0);
  revenue ← _safe_get_number info "totalRevenue" (VInt 0);
  employees ← _safe_get_number info "fullTimeEmployees" (VInt 0);
  headquarters ← _format_location info;
  description ← _get_description info;
  current_price ← _safe_get_number info "currentPrice" (VInt 0);
  previous_close ← _safe_get_number info "previousClose" (VInt 0);
  volume ← _safe_get_number info "volume" (VInt 0);
  avg_volume ← _safe_get_number info "averageVolume" (VInt 0);
  pe_ratio ← _safe_get_number info "trailingPE" (VInt 0);
  pb_ratio ← _safe_get_number info "priceToBook" (VInt 0);
  dividend_yield ← _safe_get_number info "dividendYield" (VInt 0);
  Ok (<["symbol" := VStr (upper symbol)]>
      (<["company_name" := company_name]>
      (<["sector" := dict_get info "sector" (VStr "N/A")]>
      (<["industry" := dict_get info "industry" (VStr "N/A")]>
      (<["market_cap" := market_cap]>
      (<["enterprise_value" := enterprise_value]>
      (<["revenue" := revenue]>
      (<["employees" := employees]>
      (<["founded_year" := VInt 0]>
      (<["headquarters" := headquarters]>
      (<["website" := dict_get info "website" (VStr "N/A")]>
      (<["description" := description]>
      (<["current_price" := current_price]>
      (<["previous_close" := previous_close]>
      (<["volume" := volume]>
      (<["avg_volume" := avg_volume]>
      (<["pe_ratio" := pe_ratio]>
      (<["pb_ratio" := pb_ratio]>
      (<["dividend_yield" := dividend_yield]>
      (<["last_updated" := VStr now]> ∅)))))))))))))))))))).

(** [not info or len(info) < 5] *)
Definition sparse (info : option (gmap string pyval)) : bool :=
  match info with
  | None => true
  | Some bag => Nat.eqb (size bag) 0 || (size bag <? 5)%nat
  end.

(** The result is [None] (here [Ok None]) or the profile. *)
Definition get_company_basic_info (now symbol : string)
    (reply : result (option (gmap string pyval))) (page : http_outcome)
  : result (option (gmap string pyval)) :=
  catch_all
    (info ← reply;
     if sparse info then Ok None
     else
       company_data ← primary_profile now symbol (default ∅ info);
       merged ← catch_all
                  (scraped ← scrape_yahoo_finance_safe page;
                   if negb (Nat.eqb (size scraped) 0)
                   then Ok (merge_scraped company_data scraped)
                   else Ok company_data)
                  (Ok company_data);
       Ok (Some merged))
    (Ok None).

(** *** get_financial_ratios *)

(** [info.get] on what the provider gave: [None] has no [get]. *)
Definition the_bag (info : option (gmap string pyval))
  : result (gmap string pyval) :=
  match info with
  | Some bag => Ok bag
  | None => Raise AttributeError
  end.

Definition ratio_fields : list (string * string) :=
  [ ("pe_ratio", "trailingPE"); ("forward_pe", "forwardPE");
    ("peg_ratio", "pegRatio");
    ("price_to_sales", "priceToSalesTrailing12Months");
    ("price_to_book", "priceToBook"); ("debt_to_equity", "debtToEquity");
    ("roe", "returnOnEquity"); ("roa", "returnOnAssets");
    ("profit_margin", "profitMargins");
    ("operating_margin", "operatingMargins");
    ("current_ratio", "currentRatio"); ("quick_ratio", "quickRatio") ].

(** The entries of the [ratios] literal, evaluated in order. *)
Fixpoint ratio_entries (info : gmap string pyval)
    (fields : list (string * string)) : result (list (string * pyval)) :=
  match fields with
  | [] => Ok []
  | (name, key) :: rest =>
      v ← _safe_get_number info key (VInt 0);
      vs ← ratio_entries info rest;
      Ok ((name, v) :: vs)
  end.

Definition get_financial_ratios
    (reply : result (option (gmap string pyval)))
  : result (gmap string pyval) :=
  catch_all
    (info ← reply;
     bag ← the_bag info;
     entries ← ratio_entries bag ratio_fields;
     Ok (list_to_map entries))
    (Ok ∅).

(** *** get_executives *)

(** [officer.get(key, default)]: only a dict has [get]. *)
Fixpoint entries_get (entries : list (string * pyval)) (key : string)
    (default : pyval) : pyval :=
  match entries with
  | [] => default
  | (k, v) :: rest =>
      if String.eqb k key then v else entries_get rest key default
  end.

Definition executive_of (officer : pyval) : result (gmap string pyval) :=
  match officer with
  | VDict entries =>
      Ok (<["name" := entries_get entries "name" (VStr "N/A")]>
          (<["title" := entries_get entries "title" (VStr "N/A")]>
          (<["age" := entries_get entries "age" (VInt 0)]>
          (<["total_pay" := entries_get entries "totalPay" (VInt 0)]> ∅))))
  | _ => Raise AttributeError
  end.

Fixpoint executives_of (officers : list pyval)
  : result (list (gmap string pyval)) :=
  match officers with
  | [] => Ok []
  | officer :: rest =>
      e ← executive_of officer; es ← executives_of rest; Ok (e :: es)
  end.

(** [info['companyOfficers'][:5]], the elements the loop visits. *)
Definition first_officers (officers : pyval) : result (list pyval) :=
  match officers with
  | VList items => Ok (List.firstn 5 items)
  | VStr s => Ok (List.map (fun c => VStr (String c EmptyString))
                    (list_ascii_of_string (PyStr.take 5 s)))
  | _ => Raise TypeError
  end.

Definition get_executives (reply : result (option (gmap string pyval)))
  : result (list (gmap string pyval)) :=
  catch_all
    (info ← reply;
     match info with
     | None => Raise TypeError          (* 'companyOfficers' in None *)
     | Some bag =>
         match bag !! "companyOfficers" with
         | Some officers =>
             if truthy officers then
               selected ← first_officers officers; executives_of selected
             else Ok []
         | None => Ok []
         end
     end)
    (Ok []).

(** *** get_stock_history *)

(** A label of the frame's index: a pandas [Timestamp], given by what its
    [strftime('%Y-%m-%d')] renders, or something that is not a date. *)
Inductive index_label : Type :=
| Timestamp (iso_date : string)
| NotTimestamp.

(** A [DataFrame] as its rows in index order, each a label and a
    [Series] of cells. *)
Definition dataframe : Type := list (index_label * gmap string pyval).

Definition df_empty (df : dataframe) : bool := Nat.eqb (length df) 0.

(** [hist['symbol'] = symbol] *)
Definition set_symbol_column (symbol : string) (df : dataframe) : dataframe :=
  List.map (fun '(label, cells) => (label, <["symbol" := VStr symbol]> cells))
    df.

Definition get_stock_history (symbol : string) (reply : result dataframe)
  : result dataframe :=
  catch_all
    (hist ← reply;
     if negb (df_empty hist) then Ok (set_symbol_column symbol hist)
     else Ok hist)
    (Ok []).

End Collector.

(** ** database_manager.py *)

Module Store.
Import PyStr PyFloat PyVal Collector.

(** *** SQLite values, parameters and columns *)

Inductive sqlval : Type :=
| SqlNull
| SqlInteger (z : Z)
| SqlReal (f : pyfloat)
| SqlText (s : string).

Definition int64 (z : Z) : bool := ((- 2 ^ 63 <=? z) && (z <? 2 ^ 63))%Z.

(** How the [sqlite3] module binds a Python value to a [?]. *)
Definition bind_param (v : pyval) : result sqlval :=
  match v with
  | VNone => Ok SqlNull
  | VBool b => Ok (SqlInteger (if b then 1 else 0))
  | VInt z => if int64 z then Ok (SqlInteger z) else Raise OverflowError
  | VFloat FNan => Ok SqlNull
  | VFloat f => Ok (SqlReal f)
  | VStr s => Ok (SqlText s)
  | VList _ | VDict _ => Raise DatabaseError
  end.

(** The SQL comparison [a = b]; NULL equals nothing. *)
Definition sql_eqb (a b : sqlval) : bool :=
  match a, b with
  | SqlInteger x, SqlInteger y => (x =? y)%Z
  | SqlReal f, SqlReal g => feqb f g
  | SqlInteger x, SqlReal f | SqlReal f, SqlInteger x =>
      feqb (FNum (inject_Z x)) f
  | SqlText s, SqlText t => String.eqb s t
  | _, _ => false
  end.

Inductive affinity : Set := TEXT | REAL | INTEGER.

(** *** Rows and tables *)

Record company_row : Type := {
  company_id : Z;
  company_symbol : sqlval;
  company_fields : list sqlval;   (* company_name .. last_updated, in order *)
  company_created_at : string
}.

Record history_row : Type := {
  history_id : Z;
  history_symbol : sqlval;
  history_date : sqlval;
  open_price : sqlval;
  high_price : sqlval;
  low_price : sqlval;
  close_price : sqlval;
  history_volume : sqlval;
  history_created_at : string
}.

Record executive_row : Type := {
  executive_id : Z;
  executive_symbol : sqlval;
  executive_name : sqlval;
  executive_title : sqlval;
  executive_age : sqlval;
  executive_total_pay : sqlval;
  executive_created_at : string
}.

Record ratios_row : Type := {
  ratios_id : Z;
  ratios_symbol : sqlval;
  ratios_fields : list sqlval;    (* pe_ratio .. quick_ratio, in order *)
  ratios_created_at : string
}.

(** A table with [id INTEGER PRIMARY KEY AUTOINCREMENT]: its rows in id
    order and the largest id ever given out. *)
Record table (R : Type) : Type := {
  rows : list R;
  last_id : Z
}.
Arguments rows {R} t.
Arguments last_id {R} t.

Record database : Type := {
  companies : table company_row;
  stock_history : table history_row;
  executives : table executive_row;
  financial_ratios : table ratios_row
}.

Definition empty_table {R} : table R := {| rows := []; last_id := 0 |}.

(** What [init_database] creates. *)
Definition empty_database : database :=
  {| companies := empty_table; stock_history := empty_table;
     executives := empty_table; financial_ratios := empty_table |}.

(** [DELETE FROM t WHERE symbol = ?] *)
Definition delete_where {R} (symbol_of : R -> sqlval) (symbol : sqlval)
    (t : table R) : table R :=
  {| rows := List.filter (fun r => negb (sql_eqb (symbol_of r) symbol)) (rows t);
     last_id := last_id t |}.

(** [INSERT INTO t ...]: the row gets the next id. *)
Definition insert_row {R} (make : Z -> R) (t : table R) : table R :=
  {| rows := rows t ++ [make (last_id t + 1)];
     last_id := last_id t + 1 |}.

(** [SELECT * FROM t WHERE symbol = ?] *)
Definition select_where {R} (symbol_of : R -> sqlval) (symbol : sqlval)
    (t : table R) : list R :=
  List.filter (fun r => sql_eqb (symbol_of r) symbol) (rows t).

Section Engine.

(** Two conversions of the engine are taken as given: the text SQLite
    renders a number as, and the number a text that looks like a numeric
    literal is read as. *)
Variable text_of_number : sqlval -> string.
Variable numeric_of_text : string -> option (Z + pyfloat).

(** The integers SQLite turns a REAL into: those strictly between the
    smallest and the largest 64-bit integer. *)
Definition inside_int64 (z : Z) : bool :=
  ((- 2 ^ 63 <? z) && (z <? 2 ^ 63 - 1))%Z.

(** A REAL that is an integer strictly inside the 64-bit range is stored as
    INTEGER in an INTEGER column. *)
Definition integer_if_exact (f : pyfloat) : sqlval :=
  match f with
  | FNum q =>
      if (Z.pos (Qden (Qred q)) =? 1)%Z && inside_int64 (Qnum (Qred q))
      then SqlInteger (Qnum (Qred q))
      else SqlReal f
  | _ => SqlReal f
  end.

(** The conversion SQLite applies to a value stored in a column of a given
    affinity. *)
Definition column_affinity (a : affinity) (v : sqlval) : sqlval :=
  match a, v with
  | TEXT, SqlInteger _ | TEXT, SqlReal _ => SqlText (text_of_number v)
  | REAL, SqlInteger z => SqlReal (FNum (inject_Z z))
  | REAL, SqlText s =>
      match numeric_of_text s with
      | Some (inl z) => SqlReal (FNum (inject_Z z))
      | Some (inr f) => SqlReal f
      | None => v
      end
  | INTEGER, SqlReal f => integer_if_exact f
  | INTEGER, SqlText s =>
      match numeric_of_text s with
      | Some (inl z) => SqlInteger z
      | Some (inr f) => integer_if_exact f
      | None => v
      end
  | _, _ => v
  end.

(** The value stored for one [?] of a statement. *)
Definition stored (a : affinity) (v : pyval) : result sqlval :=
  x ← bind_param v; Ok (column_affinity a x).

(** *** insert_company_data *)

(** The columns after [symbol]: key, affinity, and the default of
    [company_data.get]. *)
Definition company_columns (now : string)
  : list (string * affinity * pyval) :=
  [ ("company_name", TEXT, VNone); ("sector", TEXT, VNone);
    ("industry", TEXT, VNone); ("market_cap", REAL, VInt 0);
    ("enterprise_value", REAL, VInt 0); ("revenue", REAL, VInt 0);
    ("employees", INTEGER, VInt 0); ("founded_year", INTEGER, VInt 0);
    ("headquarters", TEXT, VStr ""); ("website", TEXT, VStr "");
    ("description", TEXT, VStr ""); ("current_price", REAL, VInt 0);
    ("previous_close", REAL, VInt 0); ("volume", INTEGER, VInt 0);
    ("avg_volume", INTEGER, VInt 0); ("pe_ratio", REAL, VInt 0);
    ("pb_ratio", REAL, VInt 0); ("dividend_yield", REAL, VInt 0);
    ("last_updated", TEXT, VStr now) ].

Fixpoint stored_columns (payload : gmap string pyval)
    (columns : list (string * affinity * pyval)) : result (list sqlval) :=
  match columns with
  | [] => Ok []
  | (key, a, default) :: rest =>
      x ← stored a (dict_get payload key default);
      xs ← stored_columns payload rest;
      Ok (x :: xs)
  end.

(** [symbol TEXT UNIQUE NOT NULL] under [INSERT OR REPLACE]: a NULL symbol
    aborts the statement, a row with an equal symbol is deleted first. *)
Definition insert_or_replace_company (symbol : sqlval) (fields : list sqlval)
    (created_at : string) (t : table company_row)
  : result (table company_row) :=
  match symbol with
  | SqlNull => Raise DatabaseError
  | _ =>
      Ok (insert_row
            (fun id => {| company_id := id; company_symbol := symbol;
                          company_fields := fields;
                          company_created_at := created_at |})
            (delete_where company_symbol symbol t))
  end.

(** [now] is [datetime.now()] as formatted by the code, [created_at] the
    engine's [CURRENT_TIMESTAMP]. *)
Definition insert_company_data (now created_at : string)
    (company_data : gmap string pyval) (db : database) : database * bool :=
  match
    symbol ← stored TEXT (dict_get company_data "symbol" VNone);
    fields ← stored_columns company_data (company_columns now);
    insert_or_replace_company symbol fields created_at (companies db)
  with
  | Ok t =>
      ({| companies := t; stock_history := stock_history db;
          executives := executives db;
          financial_ratios := financial_ratios db |}, true)
  | Raise _ => (db, false)
  end.

(** *** insert_stock_history *)

Definition strftime (label : index_label) : result string :=
  match label with
  | Timestamp iso_date => Ok iso_date
  | NotTimestamp => Raise AttributeError
  end.

(** The parameters of one INSERT of the loop, as stored. *)
Definition history_values (label : index_label) (row : gmap string pyval)
  : result (sqlval * sqlval * sqlval * sqlval * sqlval * sqlval) :=
  date ← strftime label;
  o ← py_float (dict_get row "Open" (VInt 0));
  h ← py_float (dict_get row "High" (VInt 0));
  l ← py_float (dict_get row "Low" (VInt 0));
  c ← py_float (dict_get row "Close" (VInt 0));
  v ← py_int (dict_get row "Volume" (VInt 0));
  sd ← stored TEXT (VStr date);
  so ← stored REAL (VFloat o);
  sh ← stored REAL (VFloat h);
  sl ← stored REAL (VFloat l);
  sc ← stored REAL (VFloat c);
  sv ← stored INTEGER (VInt v);
  Ok (sd, so, sh, sl, sc, sv).

(** [for date, row in stock_df.iterrows(): cursor.execute(INSERT ...)];
    [clock k] is the engine's [CURRENT_TIMESTAMP] at statement [k] of the
    call. *)
Fixpoint insert_history_rows (clock : nat -> string) (k : nat)
    (symbol : sqlval) (stock_df : dataframe) (t : table history_row)
  : result (table history_row) :=
  match stock_df with
  | [] => Ok t
  | (label, row) :: rest =>
      vals ← history_values label row;
      let '(sd, so, sh, sl, sc, sv) := vals in
      insert_history_rows clock (S k) symbol rest
        (insert_row
           (fun id => {| history_id := id; history_symbol := symbol;
                         history_date := sd; open_price := so;
                         high_price := sh; low_price := sl;
                         close_price := sc; history_volume := sv;
                         history_created_at := clock k |})
           t)
  end.

(** An exception leaves before [conn.commit()]: nothing is written. *)
Definition insert_stock_history (clock : nat -> string) (symbol : string)
    (stock_df : dataframe) (db : database) : database * bool :=
  match
    s ← stored TEXT (VStr symbol);
    insert_history_rows clock 1 s stock_df
      (delete_where history_symbol (SqlText symbol) (stock_history db))
  with
  | Ok t =>
      ({| companies := companies db; stock_history := t;
          executives := executives db;
          financial_ratios := financial_ratios db |}, true)
  | Raise _ => (db, false)
  end.

(** *** insert_executives *)

Definition executive_values (exec_data : gmap string pyval)
  : result (sqlval * sqlval * sqlval * sqlval) :=
  n ← stored TEXT (dict_get exec_data "name" (VStr ""));
  t ← stored TEXT (dict_get exec_data "title" (VStr ""));
  a ← stored INTEGER (dict_get exec_data "age" (VInt 0));
  p ← stored REAL (dict_get exec_data "total_pay" (VInt 0));
  Ok (n, t, a, p).

Fixpoint insert_executive_rows (clock : nat -> string) (k : nat)
    (symbol : sqlval) (execs : list (gmap string pyval))
    (t : table executive_row) : result (table executive_row) :=
  match execs with
  | [] => Ok t
  | exec_data :: rest =>
      vals ← executive_values exec_data;
      let '(n, ti, a, p) := vals in
      insert_executive_rows clock (S k) symbol rest
        (insert_row
           (fun id => {| executive_id := id; executive_symbol := symbol;
                         executive_name := n; executive_title := ti;
                         executive_age := a; executive_total_pay := p;
                         executive_created_at := clock k |})
           t)
  end.

Definition insert_executives (clock : nat -> string) (symbol : string)
    (execs : list (gmap string pyval)) (db : database) : database * bool :=
  match
    s ← stored TEXT (VStr symbol);
    insert_executive_rows clock 1 s execs
      (delete_where executive_symbol (SqlText symbol) (executives db))
  with
  | Ok t =>
      ({| companies := companies db; stock_history := stock_history db;
          executives := t;
          financial_ratios := financial_ratios db |}, true)
  | Raise _ => (db, false)
  end.

(** *** insert_financial_ratios *)

Definition ratio_columns : list (string * affinity * pyval) :=
  List.map (fun '(name, _) => (name, REAL, VInt 0)) ratio_fields.

Definition insert_financial_ratios (created_at : string) (symbol : string)
    (ratios : gmap string pyval) (db : database) : database * bool :=
  match
    s ← stored TEXT (VStr symbol);
    fields ← stored_columns ratios ratio_columns;
    Ok (insert_row
          (fun id => {| ratios_id := id; ratios_symbol := s;
                        ratios_fields := fields;
                        ratios_created_at := created_at |})
          (delete_where ratios_symbol (SqlText symbol) (financial_ratios db)))
  with
  | Ok t =>
      ({| companies := companies db; stock_history := stock_history db;
          executives := executives db; financial_ratios := t |}, true)
  | Raise _ => (db, false)
  end.

End Engine.

End Store.

(** ** app.py: one turn of the loop of [collect_industry_data] *)

Module App.
Import PyStr PyFloat PyVal Collector Store.

(** What the outside world gives during the turn for one symbol: the
    provider's replies (each collector method asks again), the quote page,
    and the clocks. *)
Record world : Type := {
  now : string;                  (* datetime.now() in the collector *)
  insert_now : string;           (* datetime.now() in the store *)
  info_reply : result (option (gmap string pyval));
  quote_page : http_outcome;
  officers_reply : result (option (gmap string pyval));
  ratios_reply : result (option (gmap string pyval));
  history_reply : result dataframe;
  company_clock : string;
  executives_clock : nat -> string;
  ratios_clock : string;
  history_clock : nat -> string
}.

Inductive outcome : Set := Succeeded | Failed.

Section Engine.

Variable text_of_number : sqlval -> string.
Variable numeric_of_text : string -> option (Z + pyfloat).

Definition save_executives (w : world) (symbol : string) (db : database)
  : database :=
  match get_executives (officers_reply w) with
  | Ok execs =>
      if negb (Nat.eqb (length execs) 0)
      then fst (insert_executives text_of_number numeric_of_text
                  (executives_clock w) symbol execs db)
      else db
  | Raise _ => db
  end.

Definition save_ratios (w : world) (symbol : string) (db : database)
  : database :=
  match get_financial_ratios (ratios_reply w) with
  | Ok ratios =>
      if negb (Nat.eqb (size ratios) 0)
      then fst (insert_financial_ratios text_of_number numeric_of_text
                  (ratios_clock w) symbol ratios db)
      else db
  | Raise _ => db
  end.

Definition save_history (w : world) (symbol : string) (db : database)
  : database :=
  match get_stock_history symbol (history_reply w) with
  | Ok stock_history =>
      if negb (df_empty stock_history)
      then fst (insert_stock_history text_of_number numeric_of_text
                  (history_clock w) symbol stock_history db)
      else db
  | Raise _ => db
  end.

(** The body of [for i, symbol in enumerate(companies)] without its
    display calls: the store afterwards and how the symbol is counted. *)
Definition collect_symbol (w : world) (symbol : string) (db : database)
  : database * outcome :=
  match get_company_basic_info (now w) symbol (info_reply w) (quote_page w) with
  | Ok (Some company_data) =>
      if negb (Nat.eqb (size company_data) 0) then
        let db1 := fst (insert_company_data text_of_number numeric_of_text
                          (insert_now w) (company_clock w) company_data db) in
        let db2 := save_executives w symbol db1 in
        let db3 := save_ratios w symbol db2 in
        let db4 := save_history w symbol db3 in
        (db4, Succeeded)
      else (db, Failed)
  | Ok None => (db, Failed)
  | Raise _ => (db, Failed)
  end.

End Engine.

End App.

(** * Properties *)

(** Exposes the [match] behind every [x ← r; k]. *)
Ltac unbind := unfold mbind, result_bind, bind in *.

(** In [H : (x ← r; k) = Ok _], once exposed, every [r] was an [Ok]. *)
Ltac bound_ok H :=
  repeat match type of H with
         | match ?r with Ok _ => _ | Raise _ => _ end = Ok _ =>
             let E := fresh "E" in
             destruct r eqn:E; [|discriminate H]
         end.

(** ** Field normalizer *)

Module NormalizerSpec.
Import PyStr PyFloat PyVal Collector.

(** *** Location formatting *)

(** An optional string field of the bag: absent, [None], or a string; the
    first two count as the empty string. *)
Inductive optional_string : option pyval -> string -> Prop :=
| field_absent : optional_string None ""
| field_null : optional_string (Some VNone) ""
| field_text s : optional_string (Some (VStr s)) s.

(** What [info.get(key, '')] holds for such a field. *)
Inductive holds : pyval -> string -> Prop :=
| holds_null : holds VNone ""
| holds_text s : holds (VStr s) s.

Lemma optional_string_get (info : gmap string pyval) key s :
  optional_string (info !! key) s -> holds (dict_get info key (VStr "")) s.
Proof.
  unfold dict_get. intros H. inversion H; subst; constructor.
Qed.

Lemma holds_truthy v s : holds v s -> truthy v = nonempty s.
Proof. intros H. destruct H; reflexivity. Qed.

Lemma join_parts_filter vs ss :
  Forall2 holds vs ss ->
  str_join_parts (List.filter truthy vs) = Ok (List.filter nonempty ss).
Proof.
  induction 1 as [|v s vs ss Hv _ IH]; simpl; [reflexivity|].
  rewrite (holds_truthy v s Hv).
  destruct Hv as [|t]; simpl; [exact IH|].
  destruct (nonempty t); simpl; [|exact IH].
  unbind. rewrite IH. reflexivity.
Qed.

Lemma filter_length_agree vs ss :
  Forall2 holds vs ss ->
  length (List.filter truthy vs) = length (List.filter nonempty ss).
Proof.
  induction 1 as [|v s vs ss Hv _ IH]; simpl; [reflexivity|].
  rewrite (holds_truthy v s Hv). destruct (nonempty s); simpl; congruence.
Qed.

Lemma join_starts_nonempty sep s ss :
  nonempty s = true -> join sep (s :: ss) <> "".
Proof.
  destruct s as [|c s]; [discriminate|]. intros _.
  destruct ss; simpl; discriminate.
Qed.

Lemma join_parts_head_nonempty parts ss :
  str_join_parts parts = Ok ss -> parts <> [] ->
  List.forallb truthy parts = true -> join ", " ss <> "".
Proof.
  destruct parts as [|p rest]; [congruence|]. intros Hj _ Ht.
  simpl in Ht. apply andb_prop in Ht as [Hp _].
  destruct p; try discriminate. simpl in Hj. unbind. simpl in Hj.
  destruct (str_join_parts rest) as [ss'|e]; simpl in Hj; [|discriminate].
  injection Hj as <-. apply join_starts_nonempty. exact Hp.
Qed.

Lemma forallb_filter_same {A} (p : A -> bool) l :
  List.forallb p (List.filter p l) = true.
Proof.
  induction l as [|a l IH]; simpl; [reflexivity|].
  destruct (p a) eqn:E; simpl; [rewrite E|]; exact IH.
Qed.

(** The components the formatter joins, as the specification words it. *)
Definition joined_location (city state country : string) : string :=
  match List.filter nonempty [city; state; country] with
  | [] => "N/A"
  | parts => join ", " parts
  end.

(** C9. For every combination of optional city, state and country strings
    (absent, [None] or a string) the formatter returns the non-empty ones
    joined by [", "] in that order, the sentinel ["N/A"] when there is
    none; and for every bag at all it returns, and never the empty
    string. *)
Theorem format_location_joins_nonempty (info : gmap string pyval)
    (city state country : string) :
  optional_string (info !! "city") city ->
  optional_string (info !! "state") state ->
  optional_string (info !! "country") country ->
  _format_location info = Ok (VStr (joined_location city state country)) /\
  joined_location city state country <> "" /\
  (List.filter nonempty [city; state; country] = [] ->
   _format_location info = Ok (VStr "N/A")).
Proof.
  intros Hc Hs Hk.
  apply optional_string_get in Hc, Hs, Hk.
  assert (HF : Forall2 holds
                 [dict_get info "city" (VStr ""); dict_get info "state" (VStr "");
                  dict_get info "country" (VStr "")] [city; state; country])
    by (repeat constructor; assumption).
  pose proof (join_parts_filter _ _ HF) as Hj.
  pose proof (filter_length_agree _ _ HF) as Hl.
  assert (Hfmt : _format_location info
                 = Ok (VStr (joined_location city state country))).
  { unfold _format_location, joined_location, py_join.
    cbv zeta. unbind. rewrite Hl, Hj.
    destruct (List.filter nonempty [city; state; country]) as [|p ps];
      reflexivity. }
  split; [exact Hfmt|]. split.
  - unfold joined_location.
    destruct (List.filter nonempty [city; state; country]) as [|p ps] eqn:E;
      [discriminate|].
    apply join_starts_nonempty.
    pose proof (forallb_filter_same nonempty [city; state; country]) as Hall.
    rewrite E in Hall. simpl in Hall. apply andb_prop in Hall as [Hp _].
    exact Hp.
  - intros E. rewrite Hfmt. unfold joined_location. rewrite E. reflexivity.
Qed.

Lemma format_location_joins_nonempty_witness :
  _format_location
    (<["city" := VStr "Austin"]> (<["state" := VStr ""]>
       (<["country" := VStr "USA"]> ∅)))
  = Ok (VStr "Austin, USA").
Proof.
  exact (proj1 (format_location_joins_nonempty
                  (<["city" := VStr "Austin"]> (<["state" := VStr ""]>
                     (<["country" := VStr "USA"]> ∅)))
                  "Austin" "" "USA"
                  (field_text "Austin") (field_text "") (field_text "USA"))).
Defined.

(** Whatever the bag holds, the formatter returns, and not the empty
    string. *)
Lemma format_location_total (info : gmap string pyval) :
  exists v, _format_location info = Ok v /\ v <> VStr "".
Proof.
  unfold _format_location, py_join.
  set (parts := List.filter truthy _).
  destruct parts as [|p ps] eqn:E.
  - eexists; split; [reflexivity|discriminate].
  - unbind. destruct (str_join_parts (p :: ps)) as [ss|e] eqn:Hj; simpl.
    + eexists; split; [reflexivity|].
      intros Heq. injection Heq as Heq. revert Heq.
      apply (join_parts_head_nonempty (p :: ps)); [exact Hj|discriminate|].
      subst parts. rewrite <- E. apply forallb_filter_same.
    + eexists; split; [reflexivity|discriminate].
Qed.

End NormalizerSpec.

Module DescriptionSpec.
Import PyStr PyFloat PyVal Collector NormalizerSpec.

Lemma length_append (s t : string) :
  String.length (s +:+ t) = (String.length s + String.length t)%nat.
Proof. induction s as [|c s IH]; simpl; [reflexivity|]. rewrite IH. reflexivity. Qed.

Lemma length_take n (s : string) :
  String.length (PyStr.take n s) = Nat.min n (String.length s).
Proof.
  revert s. induction n as [|n IH]; intros [|c s]; simpl; try reflexivity.
  rewrite IH. reflexivity.
Qed.

(** The description the code builds from a business summary and the value
    of the secondary field: the summary when it has at most 500
    characters, its first 500 characters and ["..."] otherwise, and the
    secondary value, as it is, when there is no summary. *)
Definition described (summary : string) (secondary : pyval) : pyval :=
  if nonempty summary then
    VStr (if (500 <? String.length summary)%nat
          then PyStr.take 500 summary +:+ "..."
          else summary)
  else secondary.

(** A business summary of 501 characters is stored as 503: the ellipsis is
    appended after the cut, so the 500-character cap is exceeded. *)
Lemma description_exceeds_500 :
  exists d,
    _get_description
      (<["longBusinessSummary" := VStr (replicate_char 501 "a")]> ∅)
    = Ok (VStr d) /\ (500 < String.length d)%nat.
Proof. eexists. split; [vm_compute; reflexivity|]. simpl; lia. Qed.

(** The secondary field is returned as it is, whatever its length. *)
Lemma description_fallback_not_cut :
  _get_description (<["description" := VStr (replicate_char 600 "b")]> ∅)
  = Ok (VStr (replicate_char 600 "b")).
Proof. vm_compute. reflexivity. Qed.

(** C8, as the code has it. For every bag whose business summary is an
    optional string, the description is the summary when it has at most
    500 characters, its first 500 characters followed by ["..."] when it
    is longer, and otherwise the secondary field as it is, ["N/A"] when
    that is absent too.  A description taken from the summary has at most
    503 characters, and exactly 503 when it was cut. *)
Theorem get_description_truncates (info : gmap string pyval)
    (summary : string) :
  optional_string (info !! "longBusinessSummary") summary ->
  _get_description info
  = Ok (described summary (dict_get info "description" (VStr "N/A"))) /\
  (nonempty summary = true ->
   exists d, described summary (dict_get info "description" (VStr "N/A"))
             = VStr d /\
             (String.length d <= 503)%nat /\
             ((500 < String.length summary)%nat ->
              String.length d = 503%nat /\
              PyStr.take 500 d = PyStr.take 500 summary)).
Proof.
  intros H. apply optional_string_get in H.
  split.
  - unfold _get_description, described. cbv zeta.
    destruct H as [|s]; [reflexivity|].
    change (truthy (VStr s)) with (nonempty s).
    destruct (nonempty s); [|reflexivity].
    simpl. destruct (500 <? String.length s)%nat; reflexivity.
  - intros Hne. unfold described. rewrite Hne.
    eexists; split; [reflexivity|].
    destruct (500 <? String.length summary)%nat eqn:E.
    + apply Nat.ltb_lt in E.
      rewrite length_append, length_take. simpl String.length.
      split; [lia|]. intros _. split; [lia|].
      clear -E. revert E. generalize 500%nat as n. intros n.
      revert summary. induction n as [|n IH]; intros [|c s] Hl; simpl in *;
        try reflexivity; try lia.
      rewrite IH by lia. reflexivity.
    + apply Nat.ltb_ge in E. split; [lia|]. intros; lia.
Qed.

Lemma get_description_truncates_witness :
  _get_description
    (<["longBusinessSummary" := VStr "Makes widgets."]>
       (<["description" := VStr "unused"]> ∅))
  = Ok (VStr "Makes widgets.").
Proof.
  exact (proj1 (get_description_truncates
                  (<["longBusinessSummary" := VStr "Makes widgets."]>
                     (<["description" := VStr "unused"]> ∅))
                  "Makes widgets." (field_text "Makes widgets."))).
Defined.

(** Whatever the bag holds, the description is returned, not raised. *)
Lemma get_description_total (info : gmap string pyval) :
  returns (_get_description info).
Proof.
  unfold returns, _get_description, catch_all.
  match goal with |- exists a, match ?b with _ => _ end = _ => destruct b end;
    eexists; reflexivity.
Qed.

End DescriptionSpec.

(** ** Market-value strings *)

Module MarketValueSpec.
Import PyStr PyFloat PyVal Collector NormalizerSpec.

(** *** Characters of a float literal *)

(** Every character [float] can accept once the text is stripped and
    upper-cased: digits, sign, point, underscore, exponent mark and the
    letters of INF, INFINITY and NAN. *)
Definition float_char (c : ascii) : bool :=
  isdigit c || contains c "+-._EINFTYA".

Lemma digit_run_chars s : forall ds r,
  digit_run s = (ds, r) ->
  str_forall float_char r = true -> str_forall float_char s = true.
Proof.
  induction s as [|c s IH]; intros ds r H Hr; simpl in H.
  - injection H as <- <-. reflexivity.
  - destruct (isdigit c) eqn:Hd.
    + destruct (digit_run s) as [ds' r'] eqn:E. injection H as <- <-.
      simpl. unfold float_char at 1. rewrite Hd. simpl. eapply IH; eauto.
    + destruct (Ascii.eqb c "_") eqn:Hu.
      * apply Ascii.eqb_eq in Hu. subst c.
        destruct s as [|d s'].
        -- injection H as <- <-. exact Hr.
        -- destruct (isdigit d) eqn:Hd'.
           ++ simpl str_forall. change (float_char "_") with true.
              simpl andb. eapply IH; eauto.
           ++ injection H as <- <-. exact Hr.
      * injection H as <- <-. exact Hr.
Qed.

Lemma digitpart_chars s ds r :
  digitpart s = Some (ds, r) ->
  str_forall float_char r = true -> str_forall float_char s = true.
Proof.
  unfold digitpart. destruct s as [|c s]; [discriminate|].
  destruct (isdigit c); [|discriminate].
  intros H. injection H as H. eapply digit_run_chars; eauto.
Qed.

Lemma after_chars c s r :
  after c s = Some r -> float_char c = true ->
  str_forall float_char r = true -> str_forall float_char s = true.
Proof.
  unfold after. destruct s as [|d s]; [discriminate|].
  destruct (Ascii.eqb c d) eqn:E; [|discriminate].
  apply Ascii.eqb_eq in E. subst d. intros H Hc Hr. injection H as <-.
  simpl. rewrite Hc. exact Hr.
Qed.

Lemma read_sign_chars s neg r :
  read_sign s = (neg, r) ->
  str_forall float_char r = true -> str_forall float_char s = true.
Proof.
  unfold read_sign. intros H Hr.
  destruct (after "-" s) as [r1|] eqn:E1.
  { injection H as <- <-. eapply after_chars; eauto. }
  destruct (after "+" s) as [r2|] eqn:E2; injection H as <- <-.
  - eapply after_chars; eauto.
  - exact Hr.
Qed.

Lemma read_number_chars s m k r :
  read_number s = Some (m, k, r) ->
  str_forall float_char r = true -> str_forall float_char s = true.
Proof.
  unfold read_number. intros H Hr.
  destruct (digitpart s) as [[ip r0]|] eqn:E0.
  - eapply digitpart_chars; [exact E0|].
    destruct (after "." r0) as [r1|] eqn:E1.
    + eapply after_chars; [exact E1|reflexivity|].
      destruct (digitpart r1) as [[fp r2]|] eqn:E2; injection H as <- <- <-.
      * eapply digitpart_chars; eauto.
      * exact Hr.
    + injection H as <- <- <-. exact Hr.
  - destruct (after "." s) as [r1|] eqn:E1; [|discriminate].
    eapply after_chars; [exact E1|reflexivity|].
    destruct (digitpart r1) as [[fp r2]|] eqn:E2; [|discriminate].
    injection H as <- <- <-. eapply digitpart_chars; eauto.
Qed.

Lemma read_exponent_chars s e :
  read_exponent s = Some e -> str_forall float_char s = true.
Proof.
  unfold read_exponent. destruct s as [|c s]; [reflexivity|].
  destruct (after "E" (String c s)) as [r|] eqn:E1; [|discriminate].
  destruct (read_sign r) as [eneg r1] eqn:E2.
  destruct (digitpart r1) as [[ds [|]]|] eqn:E3; try discriminate.
  intros _. eapply after_chars; [exact E1|reflexivity|].
  eapply read_sign_chars; [exact E2|]. eapply digitpart_chars; eauto.
Qed.

(** A text [float] accepts is made of such characters only, once stripped
    and upper-cased. *)
Lemma float_of_string_chars s x :
  float_of_string s = Ok x ->
  str_forall float_char (upper (c_strip s)) = true.
Proof.
  unfold float_of_string.
  destruct (read_sign (upper (c_strip s))) as [neg body] eqn:Es.
  intros H. eapply read_sign_chars; [exact Es|].
  destruct (String.eqb body "INF") eqn:E1.
  { apply String.eqb_eq in E1. subst body. reflexivity. }
  destruct (String.eqb body "INFINITY") eqn:E2.
  { apply String.eqb_eq in E2. subst body. reflexivity. }
  destruct (String.eqb body "NAN") eqn:E3.
  { apply String.eqb_eq in E3. subst body. reflexivity. }
  simpl in H.
  destruct (read_number body) as [[[m k] r]|] eqn:En; [|discriminate].
  destruct (read_exponent r) as [e|] eqn:Ee; [|discriminate].
  eapply read_number_chars; [exact En|]. eapply read_exponent_chars; eauto.
Qed.

(** *** A letter that is in the text is in the stripped, upper-cased text *)

Lemma contains_lstrip c s :
  isspace c = false -> contains c (lstrip s) = contains c s.
Proof.
  intros Hc. induction s as [|d s IH]; simpl; [reflexivity|].
  destruct (isspace d) eqn:Hd; [|reflexivity].
  rewrite IH. destruct (Ascii.eqb c d) eqn:E; [|reflexivity].
  apply Ascii.eqb_eq in E. congruence.
Qed.

Lemma contains_rstrip c s :
  isspace c = false -> contains c (rstrip s) = contains c s.
Proof.
  intros Hc. induction s as [|d s IH]; simpl; [reflexivity|].
  destruct (rstrip s) as [|e r] eqn:Er.
  - simpl in IH. rewrite <- IH.
    destruct (isspace d) eqn:Hd; simpl; [|reflexivity].
    destruct (Ascii.eqb c d) eqn:E; [|reflexivity].
    apply Ascii.eqb_eq in E. congruence.
  - change (contains c (String d (String e r)))
      with (Ascii.eqb c d || contains c (String e r)).
    rewrite IH. reflexivity.
Qed.

Lemma contains_c_lstrip c s :
  c_isspace c = false -> contains c (c_lstrip s) = contains c s.
Proof.
  intros Hc. induction s as [|d s IH]; simpl; [reflexivity|].
  destruct (c_isspace d) eqn:Hd; [|reflexivity].
  rewrite IH. destruct (Ascii.eqb c d) eqn:E; [|reflexivity].
  apply Ascii.eqb_eq in E. congruence.
Qed.

Lemma contains_c_rstrip c s :
  c_isspace c = false -> contains c (c_rstrip s) = contains c s.
Proof.
  intros Hc. induction s as [|d s IH]; simpl; [reflexivity|].
  destruct (c_rstrip s) as [|e r] eqn:Er.
  - simpl in IH. rewrite <- IH.
    destruct (c_isspace d) eqn:Hd; simpl; [|reflexivity].
    destruct (Ascii.eqb c d) eqn:E; [|reflexivity].
    apply Ascii.eqb_eq in E. congruence.
  - change (contains c (String d (String e r)))
      with (Ascii.eqb c d || contains c (String e r)).
    rewrite IH. reflexivity.
Qed.

Lemma contains_upper c s :
  contains c s = true -> contains (upper_char c) (upper s) = true.
Proof.
  induction s as [|d s IH]; simpl; [discriminate|].
  intros H. apply orb_prop in H as [H|H].
  - apply Ascii.eqb_eq in H. subst d. rewrite Ascii.eqb_refl. reflexivity.
  - rewrite IH by exact H. apply orb_true_r.
Qed.

Lemma str_forall_contains p c s :
  str_forall p s = true -> contains c s = true -> p c = true.
Proof.
  induction s as [|d s IH]; simpl; [discriminate|].
  intros Hp Hc. apply andb_prop in Hp as [Hd Hs].
  apply orb_prop in Hc as [Hc|Hc]; [|auto].
  apply Ascii.eqb_eq in Hc. subst d. exact Hd.
Qed.

(** A capital letter that no float literal has is in no text that [float]
    accepts. *)
Lemma float_of_string_lacks c s x :
  float_of_string s = Ok x ->
  c_isspace c = false -> upper_char c = c -> float_char c = false ->
  contains c s = false.
Proof.
  intros Hf Hsp Hup Hfc.
  destruct (contains c s) eqn:Hc; [|reflexivity].
  apply float_of_string_chars in Hf.
  assert (contains c (upper (c_strip s)) = true) as Hin.
  { rewrite <- Hup. apply contains_upper. unfold c_strip.
    rewrite contains_c_rstrip, contains_c_lstrip by exact Hsp. exact Hc. }
  pose proof (str_forall_contains _ _ _ Hf Hin). congruence.
Qed.

(** *** Removing a letter *)

Lemma contains_append c s t :
  contains c (s +:+ t) = contains c s || contains c t.
Proof.
  induction s as [|d s IH]; simpl; [reflexivity|].
  rewrite IH. apply orb_assoc.
Qed.

Lemma remove_append c s t :
  remove c (s +:+ t) = remove c s +:+ remove c t.
Proof.
  induction s as [|d s IH]; simpl; [reflexivity|].
  rewrite IH. destruct (Ascii.eqb c d); reflexivity.
Qed.

Lemma remove_absent c s : contains c s = false -> remove c s = s.
Proof.
  induction s as [|d s IH]; simpl; [reflexivity|].
  intros H. apply orb_false_elim in H as [Hd Hs].
  rewrite Hd, IH by exact Hs. reflexivity.
Qed.

Lemma append_empty (s : string) : s +:+ "" = s.
Proof.
  induction s as [|c s IH]; [reflexivity|].
  change (String c (s +:+ "") = String c s). f_equal. exact IH.
Qed.

Lemma remove_suffix c n :
  contains c n = false -> remove c (n +:+ String c "") = n.
Proof.
  intros H. rewrite remove_append, remove_absent by exact H.
  simpl. rewrite Ascii.eqb_refl. apply append_empty.
Qed.

(** *** The claim *)

(** The value returned for what [float] made of the text: 0 when it
    raised. *)
Definition number_or_zero (r : result pyfloat) : pyval :=
  match r with
  | Ok f => VFloat f
  | Raise _ => VInt 0
  end.

(** [float(...) * k] *)
Definition scaled (k : pyfloat) (r : result pyfloat) : result pyfloat :=
  f ← r; Ok (fmul f k).

(** The text before the last character, and that character. *)
Fixpoint last_split (s : string) : option (string * ascii) :=
  match s with
  | EmptyString => None
  | String c s' =>
      match last_split s' with
      | None => Some (EmptyString, c)
      | Some (n, d) => Some (String c n, d)
      end
  end.

(** The parser as the specification words it: a T, B or M at the end of
    the normalised text is the magnitude and the text before it the
    numeric part; a text without such a suffix is parsed as it is; what
    does not parse is 0. *)
Definition market_value_by_suffix (value_str : string) : pyval :=
  let t := normalise value_str in
  number_or_zero
    match last_split t with
    | Some (n, c) =>
        if Ascii.eqb c "T" then scaled f1e12 (float_of_string n)
        else if Ascii.eqb c "B" then scaled f1e9 (float_of_string n)
        else if Ascii.eqb c "M" then scaled f1e6 (float_of_string n)
        else float_of_string t
    | None => float_of_string t
    end.

(** The parser as the code has it: the first of the letters T, B, M that
    is anywhere in the normalised text is the magnitude, and the text
    without any occurrence of it is the numeric part. *)
Definition market_value_by_letter (value_str : string) : pyval :=
  let t := normalise value_str in
  number_or_zero
    (if contains "T" t then scaled f1e12 (float_of_string (remove "T" t))
     else if contains "B" t then scaled f1e9 (float_of_string (remove "B" t))
     else if contains "M" t then scaled f1e6 (float_of_string (remove "M" t))
     else float_of_string t).

Lemma last_split_snoc n c : last_split (n +:+ String c "") = Some (n, c).
Proof.
  induction n as [|d n IH]; [reflexivity|].
  change (String d n +:+ String c "") with (String d (n +:+ String c "")).
  cbn [last_split]. rewrite IH. reflexivity.
Qed.

Lemma scaled_branch k (r : result pyfloat) :
  catch_all (bind r (fun f => Ok (VFloat (fmul f k)))) (Ok (VInt 0))
  = Ok (number_or_zero (scaled k r)).
Proof. destruct r; reflexivity. Qed.

Lemma literal_branch (r : result pyfloat) :
  catch_all (bind r (fun f => Ok (VFloat f))) (Ok (VInt 0))
  = Ok (number_or_zero r).
Proof. destruct r; reflexivity. Qed.

Lemma parse_market_value_by_letter value_str :
  _parse_market_value value_str = Ok (market_value_by_letter value_str).
Proof.
  unfold _parse_market_value, market_value_by_letter. cbv zeta.
  unfold mbind, result_bind.
  destruct (contains "T" (normalise value_str)); [apply scaled_branch|].
  destruct (contains "B" (normalise value_str)); [apply scaled_branch|].
  destruct (contains "M" (normalise value_str)); [apply scaled_branch|].
  apply literal_branch.
Qed.

Lemma contains_one c d : contains c (String d "") = Ascii.eqb c d.
Proof. simpl. apply orb_false_r. Qed.

(** The text "1T2" has no suffix and is no number, so the parser of the
    specification gives 0; the code takes the [T] inside it for the
    magnitude and gives 12 * 10^12. *)
Lemma parse_market_value_not_by_suffix :
  market_value_by_suffix "1T2" = VInt 0 /\
  _parse_market_value "1T2" = Ok (VFloat (FNum (inject_Z (12 * 10 ^ 12)))) /\
  _parse_market_value "1T2" <> Ok (market_value_by_suffix "1T2").
Proof. repeat split; [vm_compute; reflexivity ..|discriminate]. Qed.

(** The spelling "infinity", which [float] reads, is answered by 0 for the
    same reason: its [T] is removed. *)
Example parse_market_value_infinity :
  float_of_string (normalise "infinity") = Ok (FInf false) /\
  _parse_market_value "infinity" = Ok (VInt 0).
Proof. split; vm_compute; reflexivity. Qed.

(** C5, as the code has it.  For every text the parser returns and does
    not raise, and the result is what the letters decide: the first of T,
    B, M found anywhere in the normalised text (stripped, upper-cased,
    without ['$'] and commas) selects 10^12, 10^9 or 10^6, every
    occurrence of it is removed, and the number left is scaled; without
    these letters the text is parsed as it is; what does not parse is 0.
    Where the normalised text is a part without the letters T, B and M
    followed by one character, this is the parser of the specification:
    the part scaled by a suffix T, B or M, the whole text read literally
    otherwise, 0 when that is not a number.  A numeric part can only hold
    the letter T (in INFINITY), never B or M.  "2.5T", "150.3B", "45M" and
    "garbage" give 2.5e12, 1.503e11, 4.5e7 and 0. *)
Theorem parse_market_value_scales (value_str n : string) (c : ascii) :
  normalise value_str = n +:+ String c "" ->
  contains "T" n = false ->
  contains "B" n = false ->
  contains "M" n = false ->
  _parse_market_value value_str = Ok (market_value_by_suffix value_str) /\
  (c = "T"%char ->
   _parse_market_value value_str
   = Ok (number_or_zero (scaled f1e12 (float_of_string n)))) /\
  (c = "B"%char ->
   _parse_market_value value_str
   = Ok (number_or_zero (scaled f1e9 (float_of_string n)))) /\
  (c = "M"%char ->
   _parse_market_value value_str
   = Ok (number_or_zero (scaled f1e6 (float_of_string n)))) /\
  (c <> "T"%char -> c <> "B"%char -> c <> "M"%char ->
   _parse_market_value value_str
   = Ok (number_or_zero (float_of_string (normalise value_str)))) /\
  (forall w, _parse_market_value w = Ok (market_value_by_letter w)) /\
  (forall w, _parse_market_value w = Ok (VInt 0) \/
             exists f, _parse_market_value w = Ok (VFloat f)) /\
  (forall m x, float_of_string m = Ok x ->
               contains "B" m = false /\ contains "M" m = false) /\
  _parse_market_value "2.5T" = Ok (VFloat (FNum (inject_Z (25 * 10 ^ 11)))) /\
  _parse_market_value "150.3B" = Ok (VFloat (FNum (inject_Z (1503 * 10 ^ 8)))) /\
  _parse_market_value "45M" = Ok (VFloat (FNum (inject_Z (45 * 10 ^ 6)))) /\
  _parse_market_value "garbage" = Ok (VInt 0).
Proof.
  intros Hn HT HB HM.
  assert (Hcode : _parse_market_value value_str
                  = Ok (number_or_zero
                          (if Ascii.eqb c "T"
                           then scaled f1e12 (float_of_string n)
                           else if Ascii.eqb c "B"
                           then scaled f1e9 (float_of_string n)
                           else if Ascii.eqb c "M"
                           then scaled f1e6 (float_of_string n)
                           else float_of_string (normalise value_str)))).
  { rewrite parse_market_value_by_letter. unfold market_value_by_letter.
    cbv zeta. rewrite Hn, !contains_append, !contains_one, HT, HB, HM.
    cbn [orb]. rewrite (Ascii.eqb_sym "T" c), (Ascii.eqb_sym "B" c),
      (Ascii.eqb_sym "M" c).
    destruct (Ascii.eqb c "T") eqn:ET.
    { apply Ascii.eqb_eq in ET. subst c.
      rewrite remove_suffix by exact HT. reflexivity. }
    destruct (Ascii.eqb c "B") eqn:EB.
    { apply Ascii.eqb_eq in EB. subst c.
      rewrite remove_suffix by exact HB. reflexivity. }
    destruct (Ascii.eqb c "M") eqn:EM.
    { apply Ascii.eqb_eq in EM. subst c.
      rewrite remove_suffix by exact HM. reflexivity. }
    reflexivity. }
  split.
  { rewrite Hcode. unfold market_value_by_suffix. cbv zeta.
    rewrite Hn, last_split_snoc. reflexivity. }
  split; [intros ->; exact Hcode|].
  split; [intros ->; exact Hcode|].
  split; [intros ->; exact Hcode|].
  split.
  { intros H1 H2 H3. rewrite Hcode.
    apply Ascii.eqb_neq in H1, H2, H3. rewrite H1, H2, H3. reflexivity. }
  split; [exact parse_market_value_by_letter|].
  split.
  { intros w. rewrite parse_market_value_by_letter.
    destruct (market_value_by_letter w) eqn:E; unfold market_value_by_letter,
      number_or_zero in E; cbv zeta in E;
      match type of E with
      | match ?r with _ => _ end = _ => destruct r; try discriminate E
      end; [left; congruence|right; eauto]. }
  split.
  { intros m x Hx. split; eapply float_of_string_lacks; eauto. }
  repeat split; vm_compute; reflexivity.
Qed.

Lemma parse_market_value_scales_witness :
  _parse_market_value "$1,250.5b"
  = Ok (number_or_zero (scaled f1e9 (float_of_string "1250.5"))).
Proof.
  refine (proj1 (proj2 (proj2 (parse_market_value_scales "$1,250.5b" "1250.5"
                                 "B" _ _ _ _))) eq_refl);
    vm_compute; reflexivity.
Defined.

(** What the witness computes to: 1250.5 * 10^9. *)
Example parse_market_value_scaled_value :
  _parse_market_value "$1,250.5b"
  = Ok (VFloat (FNum (inject_Z (12505 * 10 ^ 8)))).
Proof. vm_compute. reflexivity. Qed.

End MarketValueSpec.

(** ** Numeric fields and ratios *)

Module NumberSpec.
Import PyStr PyFloat PyVal Collector NormalizerSpec.

(** *** _safe_get_number *)

Lemma float_of_string_raises s e :
  float_of_string s = Raise e -> e = ValueError.
Proof.
  unfold float_of_string.
  destruct (read_sign (upper (c_strip s))) as [neg body].
  destruct (String.eqb body "INF" || String.eqb body "INFINITY");
    [discriminate|].
  destruct (String.eqb body "NAN"); [discriminate|].
  destruct (read_number body) as [[[m k] r]|]; [|congruence].
  destruct (read_exponent r); [discriminate|congruence].
Qed.

(** The only value [float] overflows on is an integer out of the range of
    a double. *)
Lemma py_float_raises v e :
  py_float v = Raise e ->
  is_value_or_type_error e = true \/
  exists z, v = VInt z /\ (overflow_threshold <= Z.abs z)%Z.
Proof.
  destruct v; simpl; intros H; try (injection H as <-; left; reflexivity);
    try discriminate.
  - unfold float_of_int in H.
    destruct (overflow_threshold <=? Z.abs z)%Z eqn:E; [|discriminate].
    right. exists z. split; [reflexivity|]. apply Z.leb_le. exact E.
  - apply float_of_string_raises in H. subst e. left. reflexivity.
Qed.

(** C6, at the input that breaks it. An integer field too large for a
    double makes [float] raise [OverflowError], which the handler for
    [ValueError] and [TypeError] does not catch: the extractor raises
    instead of returning the default. *)
Theorem safe_get_number_overflow_escapes :
  _safe_get_number (<["marketCap" := VInt (10 ^ 400)]> ∅) "marketCap" (VInt 0)
  = Raise OverflowError.
Proof. vm_compute. reflexivity. Qed.

(** Everywhere else the extractor returns: the value as a float when
    [float] accepts it, the default when the field is null or is not
    coercible. *)
Lemma safe_get_number_in_range (info : gmap string pyval) key default :
  (forall z, dict_get info key default = VInt z ->
             (Z.abs z < overflow_threshold)%Z) ->
  exists v, _safe_get_number info key default = Ok v /\
    match py_float (dict_get info key default) with
    | Ok f => v = VFloat f
    | Raise _ => v = default
    end.
Proof.
  intros Hr. unfold _safe_get_number, catch. cbv zeta. unbind.
  destruct (dict_get info key default) as [| b | z | f | s | l | d] eqn:Ev;
    simpl; try (eexists; split; reflexivity).
  - specialize (Hr z eq_refl). unfold float_of_int.
    destruct (overflow_threshold <=? Z.abs z)%Z eqn:E;
      [apply Z.leb_le in E; lia|].
    eexists; split; reflexivity.
  - destruct (float_of_string s) as [f|e] eqn:Ef.
    + eexists; split; reflexivity.
    + apply float_of_string_raises in Ef. subst e. simpl.
      eexists; split; reflexivity.
Qed.

Lemma safe_get_number_null (info : gmap string pyval) key default :
  info !! key = Some VNone -> _safe_get_number info key default = Ok default.
Proof.
  intros H. unfold _safe_get_number, dict_get. rewrite H. reflexivity.
Qed.

(** With the default 0 every use in the code has, what is returned is a
    float or that 0. *)
Lemma safe_get_number_numeric (info : gmap string pyval) key v :
  _safe_get_number info key (VInt 0) = Ok v ->
  v = VInt 0 \/ exists f, v = VFloat f.
Proof.
  unfold _safe_get_number, catch. cbv zeta. unbind.
  destruct (dict_get info key (VInt 0)) as [| b | z | f | s | l | d];
    simpl; intros H; try (injection H as <-; eauto; fail).
  - destruct (float_of_int z) as [f|e]; simpl in H.
    + injection H as <-. eauto.
    + destruct (is_value_or_type_error e); [injection H as <-; eauto|discriminate].
  - destruct (float_of_string s) as [f|e]; simpl in H.
    + injection H as <-. eauto.
    + destruct (is_value_or_type_error e); [injection H as <-; eauto|discriminate].
Qed.

Lemma safe_get_number_absent (info : gmap string pyval) key :
  info !! key = None ->
  _safe_get_number info key (VInt 0) = Ok (VFloat (FNum 0)).
Proof.
  intros H. unfold _safe_get_number, dict_get. rewrite H. reflexivity.
Qed.

(** *** get_financial_ratios *)

(** When the provider call raises, the fetch returns the empty mapping: it
    has none of the twelve ratios, so not a 0 for each. *)
Lemma ratios_empty_on_failure :
  get_financial_ratios (Raise NetworkError) = Ok ∅ /\
  (∅ : gmap string pyval) !! "pe_ratio" = None /\
  get_financial_ratios (Raise NetworkError)
  <> get_financial_ratios (Ok (Some ∅)).
Proof. repeat split; vm_compute; congruence. Qed.

Lemma ratio_entries_spec (bag : gmap string pyval) fields : forall entries,
  ratio_entries bag fields = Ok entries ->
  entries.*1 = fields.*1 /\
  forall name key, In (name, key) fields ->
    exists v, _safe_get_number bag key (VInt 0) = Ok v /\
              In (name, v) entries.
Proof.
  induction fields as [|[name key] fields IH]; intros entries H; simpl in H.
  - injection H as <-. split; [reflexivity|]. intros ? ? [].
  - unbind.
    destruct (_safe_get_number bag key (VInt 0)) as [v|e] eqn:Ev;
      [|discriminate].
    destruct (ratio_entries bag fields) as [vs|e] eqn:Er; [|discriminate].
    injection H as <-. destruct (IH vs eq_refl) as [Hk Hv].
    split; [simpl; f_equal; exact Hk|].
    intros name' key' [Heq|Hin].
    + injection Heq as <- <-. exists v. split; [exact Ev|left; reflexivity].
    + destruct (Hv name' key' Hin) as [v' [Hv1 Hv2]].
      exists v'. split; [exact Hv1|right; exact Hv2].
Qed.

Lemma ratio_entries_returns (bag : gmap string pyval) fields :
  (forall name key, In (name, key) fields ->
     returns (_safe_get_number bag key (VInt 0))) ->
  returns (ratio_entries bag fields).
Proof.
  induction fields as [|[name key] fields IH]; intros H; simpl.
  - eexists; reflexivity.
  - unbind. destruct (H name key (or_introl eq_refl)) as [v ->].
    destruct IH as [vs ->]; [intros n k Hin; apply (H n k); right; exact Hin|].
    eexists; reflexivity.
Qed.

Lemma ratio_names_distinct : NoDup (ratio_fields.*1).
Proof. apply (bool_decide_unpack _). vm_compute. exact I. Qed.

(** C7, as the code has it. The fetch returns for every reply of the
    provider and never raises.  When the provider gives a bag whose twelve
    fields coerce without overflow, the result is a mapping that holds
    each of the twelve named ratios: the field as a float, and 0 when it
    is absent, null or not coercible, so twelve zeros for an empty bag.
    When the provider call raises or gives no bag, the result is the
    empty mapping. *)
Theorem get_financial_ratios_outcomes
    (reply : result (option (gmap string pyval)))
    (bag : gmap string pyval) :
  (forall name key, In (name, key) ratio_fields ->
     returns (_safe_get_number bag key (VInt 0))) ->
  returns (get_financial_ratios reply) /\
  ((forall b, reply <> Ok (Some b)) -> get_financial_ratios reply = Ok ∅) /\
  (exists ratios,
     get_financial_ratios (Ok (Some bag)) = Ok ratios /\
     forall name key, In (name, key) ratio_fields ->
       exists v, _safe_get_number bag key (VInt 0) = Ok v /\
                 ratios !! name = Some v /\
                 (bag !! key = None -> v = VFloat (FNum 0))).
Proof.
  intros Hr. split; [|split].
  - unfold returns, get_financial_ratios, catch_all.
    match goal with |- exists a, match ?b with _ => _ end = _ => destruct b end;
      eexists; reflexivity.
  - intros Hn. unfold get_financial_ratios. unbind.
    destruct reply as [[b|]|e]; [exfalso; eapply Hn; reflexivity| |];
      reflexivity.
  - destruct (ratio_entries_returns bag ratio_fields Hr) as [entries He].
    destruct (ratio_entries_spec bag ratio_fields entries He) as [Hk Hv].
    exists (list_to_map entries). split.
    + unfold get_financial_ratios. unbind. simpl the_bag. cbv iota beta.
      rewrite He. reflexivity.
    + intros name key Hin. destruct (Hv name key Hin) as [v [Hv1 Hv2]].
      exists v. split; [exact Hv1|]. split.
      * apply elem_of_list_to_map_1.
        -- rewrite Hk. exact ratio_names_distinct.
        -- apply list_elem_of_In. exact Hv2.
      * intros Hab. rewrite (safe_get_number_absent bag key Hab) in Hv1.
        congruence.
Qed.

Lemma get_financial_ratios_outcomes_witness :
  get_financial_ratios (Ok None) = Ok ∅ /\
  exists ratios,
    get_financial_ratios (Ok (Some ∅)) = Ok ratios /\
    ratios !! "quick_ratio" = Some (VFloat (FNum 0)).
Proof.
  assert (Hr : forall name key, In (name, key) ratio_fields ->
                 returns (_safe_get_number ∅ key (VInt 0))).
  { intros name key _. exists (VFloat (FNum 0)). reflexivity. }
  destruct (get_financial_ratios_outcomes (Ok None) ∅ Hr)
    as [_ [Hfail [ratios [Hok Hall]]]].
  split; [apply Hfail; discriminate|].
  exists ratios. split; [exact Hok|].
  destruct (Hall "quick_ratio" "quickRatio") as [v [_ [Hl Hz]]].
  - simpl. tauto.
  - rewrite Hl, (Hz eq_refl). reflexivity.
Defined.

End NumberSpec.

(** ** Collection pipeline *)

Module PipelineSpec.
Import PyStr PyFloat PyVal Collector NormalizerSpec NumberSpec.

(** *** The merge loop *)

(** The test of the loop: the scraped value is truthy and the current one
    is falsy or one of the sentinels. *)
Definition overwrites (value current : pyval) : bool :=
  truthy value && (negb (truthy current) || py_in current sentinels).

(** The primary value is one of the unset sentinels 0, ["N/A"], [""]. *)
Definition is_unset (current : pyval) : bool := py_in current sentinels.

Lemma merge_item_lookup (cd : gmap string pyval) k v key :
  merge_item cd (k, v) !! key =
  if decide (k = key) then
    (if overwrites v (dict_get cd k VNone) then Some v else cd !! key)
  else cd !! key.
Proof.
  unfold merge_item, overwrites.
  destruct (truthy v && _) eqn:E.
  - rewrite lookup_insert. reflexivity.
  - destruct (decide (k = key)); reflexivity.
Qed.

Lemma dict_get_lookup (a b : gmap string pyval) key d :
  a !! key = b !! key -> dict_get a key d = dict_get b key d.
Proof. unfold dict_get. intros ->. reflexivity. Qed.

Lemma merge_fold_absent (l : list (string * pyval)) :
  forall (cd : gmap string pyval) key,
    key ∉ l.*1 -> foldl merge_item cd l !! key = cd !! key.
Proof.
  induction l as [|[k v] l IH]; intros cd key Hn; cbn [foldl];
    [reflexivity|].
  apply not_elem_of_cons in Hn as [Hne Hn].
  rewrite IH by exact Hn. rewrite merge_item_lookup.
  destruct (decide (k = key)) as [->|]; [|reflexivity].
  exfalso. apply Hne. reflexivity.
Qed.

Lemma merge_fold_present (l : list (string * pyval)) :
  forall (cd : gmap string pyval) key sv,
    NoDup l.*1 -> (key, sv) ∈ l ->
    foldl merge_item cd l !! key =
    if overwrites sv (dict_get cd key VNone) then Some sv else cd !! key.
Proof.
  induction l as [|[k v] l IH]; intros cd key sv Hnd Hin; cbn [foldl].
  - inversion Hin.
  - simpl in Hnd. apply NoDup_cons in Hnd as [Hk Hnd].
    apply elem_of_cons in Hin as [Heq|Hin].
    + injection Heq as <- <-.
      rewrite merge_fold_absent by exact Hk. rewrite merge_item_lookup.
      destruct (decide (key = key)); [reflexivity|congruence].
    + assert (k <> key) as Hne.
      { intros ->. apply Hk. apply list_elem_of_fmap. exists (key, sv). auto. }
      rewrite (IH _ key sv Hnd Hin).
      assert (merge_item cd (k, v) !! key = cd !! key) as Hsame.
      { rewrite merge_item_lookup.
        destruct (decide (k = key)); [congruence|reflexivity]. }
      rewrite (dict_get_lookup _ cd key VNone Hsame), Hsame. reflexivity.
Qed.

(** The merged dict, key by key: a key of the supplement takes the
    supplement's value exactly when the test of the loop holds, any other
    key keeps its value. *)
Lemma merge_scraped_lookup (cd scraped : gmap string pyval) key :
  merge_scraped cd scraped !! key =
  match scraped !! key with
  | Some sv =>
      if overwrites sv (dict_get cd key VNone) then Some sv else cd !! key
  | None => cd !! key
  end.
Proof.
  unfold merge_scraped. destruct (scraped !! key) as [sv|] eqn:E.
  - apply merge_fold_present.
    + apply NoDup_fst_map_to_list.
    + apply elem_of_map_to_list. exact E.
  - apply merge_fold_absent. intros Hin.
    apply list_elem_of_fmap in Hin as [[k v] [Hk Hin]]. simpl in Hk. subst k.
    apply elem_of_map_to_list in Hin. congruence.
Qed.

(** *** What the two sources hold under the supplement's keys *)

(** A number as the extractor returns it: a float, or the default 0. *)
Definition numeric (v : pyval) : Prop := v = VInt 0 \/ exists f, v = VFloat f.

Lemma numeric_unset v :
  numeric v -> negb (truthy v) || py_in v sentinels = is_unset v.
Proof.
  unfold is_unset. intros [->|[f ->]]; [reflexivity|].
  destruct f as [q| |]; try reflexivity.
  unfold py_in, sentinels, existsb, py_eqb, as_number, feqb, truthy, ftruthy,
    is_zero.
  change (inject_Z 0) with 0%Q. destruct (Qeq_bool q 0); reflexivity.
Qed.

Lemma scrape_price_keys el (data : gmap string pyval) key :
  scrape_price el data !! key = data !! key \/ key = "current_price".
Proof.
  unfold scrape_price. destruct el as [text|]; [|auto].
  destruct (nonempty text); [|auto].
  destruct (float_of_string _); [|auto].
  destruct (decide (key = "current_price")) as [->|Hne]; [auto|].
  left. rewrite lookup_insert_ne by congruence. reflexivity.
Qed.

Lemma scrape_market_cap_keys els (data : gmap string pyval) key :
  scrape_market_cap els data !! key = data !! key \/ key = "market_cap".
Proof.
  induction els as [|text els IH]; simpl; [auto|].
  destruct (nonempty text); [|exact IH].
  destruct (_parse_market_value text); [|auto].
  destruct (decide (key = "market_cap")) as [->|Hne]; [auto|].
  left. rewrite lookup_insert_ne by congruence. reflexivity.
Qed.

(** The supplement has at most the keys [current_price] and
    [market_cap]. *)
Lemma scrape_keys page (scraped : gmap string pyval) key sv :
  scrape_yahoo_finance_safe page = Ok scraped ->
  scraped !! key = Some sv ->
  key = "current_price" \/ key = "market_cap".
Proof.
  unfold scrape_yahoo_finance_safe, catch_all.
  destruct page as [|status el els].
  - intros H. injection H as <-. rewrite lookup_empty. discriminate.
  - destruct (negb (status =? 200)%Z).
    + intros H. injection H as <-. rewrite lookup_empty. discriminate.
    + intros H. injection H as <-. intros Hl.
      destruct (scrape_market_cap_keys els (scrape_price el ∅) key)
        as [Hm|Hm]; [|auto].
      destruct (scrape_price_keys el ∅ key) as [Hp|Hp]; [|auto].
      rewrite Hm, Hp, lookup_empty in Hl. discriminate.
Qed.

Lemma scrape_returns page : returns (scrape_yahoo_finance_safe page).
Proof.
  unfold returns, scrape_yahoo_finance_safe, catch_all.
  destruct page as [|status el els]; [eexists; reflexivity|].
  destruct (negb (status =? 200)%Z); eexists; reflexivity.
Qed.

(** The primary profile holds, under the two keys the supplement can
    have, what the extractor returned. *)
Lemma primary_profile_numbers now symbol (info cd : gmap string pyval) :
  primary_profile now symbol info = Ok cd ->
  exists mc cp,
    _safe_get_number info "marketCap" (VInt 0) = Ok mc /\
    _safe_get_number info "currentPrice" (VInt 0) = Ok cp /\
    cd !! "market_cap" = Some mc /\ cd !! "current_price" = Some cp.
Proof.
  unfold primary_profile. cbv zeta. unbind. intros H.
  bound_ok H. injection H as <-.
  eexists _, _. repeat split; by simplify_map_eq.
Qed.

(** *** The merge policy *)

(** C1. For every bag, quote page and field key returned by the
    supplement, the merged profile holds under that key the supplement's
    value when that value is truthy and the primary value is one of the
    unset sentinels 0, ["N/A"], [""], and the primary value otherwise;
    keys the supplement does not return keep the primary value. *)
Theorem merge_policy_primary_wins (now symbol : string)
    (info : gmap string pyval) (page : http_outcome)
    (scraped profile : gmap string pyval) (key : string) (sv : pyval) :
  get_company_basic_info now symbol (Ok (Some info)) page = Ok (Some profile) ->
  scrape_yahoo_finance_safe page = Ok scraped ->
  scraped !! key = Some sv ->
  exists (cd : gmap string pyval) (pv : pyval),
    primary_profile now symbol info = Ok cd /\
    cd !! key = Some pv /\
    profile !! key = Some (if truthy sv && is_unset pv then sv else pv) /\
    (forall k, scraped !! k = None -> profile !! k = cd !! k).
Proof.
  intros Hget Hscr Hkey.
  unfold get_company_basic_info, catch_all in Hget. unbind.
  destruct (sparse (Some info)); [discriminate|].
  simpl default in Hget.
  destruct (primary_profile now symbol info) as [cd|e] eqn:Hcd;
    [|discriminate].
  rewrite Hscr in Hget.
  assert (Nat.eqb (size scraped) 0 = false) as Hsize.
  { apply Nat.eqb_neq. intros Hz. apply map_size_empty_inv in Hz.
    subst scraped. rewrite lookup_empty in Hkey. discriminate. }
  rewrite Hsize in Hget. simpl in Hget. injection Hget as <-.
  destruct (primary_profile_numbers _ _ _ _ Hcd)
    as (mc & cp & Hmc & Hcp & Lmc & Lcp).
  assert (exists pv, cd !! key = Some pv /\ numeric pv) as (pv & Hpv & Hnum).
  { destruct (scrape_keys _ _ _ _ Hscr Hkey) as [-> | ->].
    - exists cp. split; [exact Lcp|]. eapply safe_get_number_numeric; eauto.
    - exists mc. split; [exact Lmc|]. eapply safe_get_number_numeric; eauto. }
  exists cd, pv. repeat split; try assumption.
  - rewrite merge_scraped_lookup, Hkey. unfold overwrites, dict_get.
    rewrite Hpv, (numeric_unset pv Hnum).
    destruct (truthy sv && is_unset pv); reflexivity.
  - intros k Hk. rewrite merge_scraped_lookup, Hk. reflexivity.
Qed.

Definition sample_info : gmap string pyval :=
  <["longName" := VStr "Acme Corp"]> (<["sector" := VStr "Technology"]>
  (<["marketCap" := VInt 0]> (<["currentPrice" := VFloat (FNum 10)]>
  (<["city" := VStr "Austin"]> ∅)))).

Definition sample_page : http_outcome := Response 200 (Some "12.5") ["2.5T"].

Definition sample_profile : gmap string pyval :=
  match get_company_basic_info "2024-01-02 03:04:05" "acme"
          (Ok (Some sample_info)) sample_page with
  | Ok (Some profile) => profile
  | _ => ∅
  end.

Lemma merge_policy_primary_wins_witness :
  exists (cd : gmap string pyval) (pv : pyval),
    primary_profile "2024-01-02 03:04:05" "acme" sample_info = Ok cd /\
    cd !! "market_cap" = Some pv /\
    sample_profile !! "market_cap"
    = Some (if truthy (VFloat (FNum (inject_Z (25 * 10 ^ 11)))) && is_unset pv
            then VFloat (FNum (inject_Z (25 * 10 ^ 11))) else pv) /\
    (forall k,
       (<["market_cap" := VFloat (FNum (inject_Z (25 * 10 ^ 11)))]>
          (<["current_price" := VFloat (FNum (25 # 2))]> ∅)
        : gmap string pyval) !! k = None ->
       sample_profile !! k = cd !! k).
Proof.
  refine (merge_policy_primary_wins "2024-01-02 03:04:05" "acme" sample_info
            sample_page _ sample_profile "market_cap" _ _ _ _);
    vm_compute; reflexivity.
Defined.

(** On the sample the market capitalisation, 0 in the primary profile, is
    taken from the page, and the price the provider gave is kept. *)
Example sample_profile_merged :
  sample_profile !! "market_cap" = Some (VFloat (FNum (inject_Z (25 * 10 ^ 11))))
  /\ sample_profile !! "current_price" = Some (VFloat (FNum 10)).
Proof. split; vm_compute; reflexivity. Qed.

(** The loop itself, before the keys of the supplement are known, also
    overwrites a primary value that is falsy without being one of the three
    sentinels, such as [None]. *)
Example merge_overwrites_none :
  merge_scraped (<["sector" := VNone]> ∅) (<["sector" := VStr "Energy"]> ∅)
  !! "sector" = Some (VStr "Energy").
Proof. vm_compute. reflexivity. Qed.

(** *** Sparse data *)

(** What the provider gave counts as no data or as sparse: [None], or a
    bag of fewer than 5 fields. *)
Definition no_data_or_sparse (info : option (gmap string pyval)) : Prop :=
  forall bag, info = Some bag -> (size bag < 5)%nat.

Lemma sparse_true info : no_data_or_sparse info -> sparse info = true.
Proof.
  unfold no_data_or_sparse, sparse. destruct info as [bag|]; [|reflexivity].
  intros H. specialize (H bag eq_refl).
  apply orb_true_iff. right. apply Nat.ltb_lt. exact H.
Qed.

End PipelineSpec.

Module CollectSpec.
Import PyStr PyFloat PyVal Collector Store App NormalizerSpec PipelineSpec.


Definition sparse_world : world :=
  {| now := "2024-01-02 03:04:05"; insert_now := "2024-01-02 03:04:06";
     info_reply := Ok (Some (<["symbol" := VStr "ZZZZ"]>
                               (<["quoteType" := VStr "NONE"]> ∅)));
     quote_page := RequestFailed;
     officers_reply := Ok None; ratios_reply := Ok None;
     history_reply := Ok [];
     company_clock := "2024-01-02 08:04:06";
     executives_clock := fun _ => "2024-01-02 08:04:06";
     ratios_clock := "2024-01-02 08:04:06";
     history_clock := fun _ => "2024-01-02 08:04:06" |}.


(** A field is populated when it holds something else than [None] and the
    unset sentinels. *)
Definition populated (v : pyval) : bool :=
  match v with
  | VNone => false
  | _ => negb (py_in v sentinels)
  end.

Definition populated_fields (bag : gmap string pyval) : nat :=
  length (List.filter (fun entry : string * pyval => populated entry.2)
            (map_to_list bag)).

(** A bag of five entries none of which is populated. *)
Definition five_nulls : gmap string pyval :=
  <["longName" := VNone]> (<["sector" := VNone]> (<["industry" := VNone]>
  (<["marketCap" := VNone]> (<["currentPrice" := VNone]> ∅)))).

Definition nulls_world : world :=
  {| now := "2024-01-02 03:04:05"; insert_now := "2024-01-02 03:04:06";
     info_reply := Ok (Some five_nulls);
     quote_page := RequestFailed;
     officers_reply := Ok (Some five_nulls);
     ratios_reply := Ok (Some five_nulls);
     history_reply := Ok [];
     company_clock := "2024-01-02 08:04:06";
     executives_clock := fun _ => "2024-01-02 08:04:06";
     ratios_clock := "2024-01-02 08:04:06";
     history_clock := fun _ => "2024-01-02 08:04:06" |}.


End CollectSpec.

(** ** Persistence store *)

Module StoreSpec.
Import PyStr PyFloat PyVal Collector Store NormalizerSpec.

Section Engine.

Variable text_of_number : sqlval -> string.
Variable numeric_of_text : string -> option (Z + pyfloat).

Abbreviation stored := (Store.stored text_of_number numeric_of_text).
Abbreviation stored_columns := (Store.stored_columns text_of_number numeric_of_text).
Abbreviation insert_company_data :=
  (Store.insert_company_data text_of_number numeric_of_text).
Abbreviation insert_stock_history :=
  (Store.insert_stock_history text_of_number numeric_of_text).
Abbreviation insert_executives :=
  (Store.insert_executives text_of_number numeric_of_text).
Abbreviation insert_history_rows :=
  (Store.insert_history_rows text_of_number numeric_of_text).
Abbreviation insert_executive_rows :=
  (Store.insert_executive_rows text_of_number numeric_of_text).
Abbreviation history_values := (Store.history_values text_of_number numeric_of_text).
Abbreviation executive_values :=
  (Store.executive_values text_of_number numeric_of_text).

(** *** Tables *)

Lemma filter_complement {A} (p : A -> bool) (l : list A) :
  List.filter p (List.filter (fun a => negb (p a)) l) = [].
Proof.
  induction l as [|a l IH]; simpl; [reflexivity|].
  destruct (p a) eqn:E; simpl; [exact IH|]. rewrite E. exact IH.
Qed.

Lemma filter_all {A} (p : A -> bool) (l : list A) :
  Forall (fun a => p a = true) l -> List.filter p l = l.
Proof.
  induction 1 as [|a l Ha _ IH]; simpl; [reflexivity|].
  rewrite Ha, IH. reflexivity.
Qed.

Lemma select_after_delete {R} (symbol_of : R -> sqlval) symbol (t : table R) :
  select_where symbol_of symbol (delete_where symbol_of symbol t) = [].
Proof. unfold select_where, delete_where. simpl. apply filter_complement. Qed.

Lemma select_insert_delete {R} (symbol_of : R -> sqlval) symbol
    (make : Z -> R) (t : table R) :
  (forall id, sql_eqb (symbol_of (make id)) symbol = true) ->
  select_where symbol_of symbol
    (insert_row make (delete_where symbol_of symbol t))
  = [make (last_id t + 1)].
Proof.
  intros Hm. unfold select_where, insert_row, delete_where.
  cbn [rows last_id]. rewrite List.filter_app, filter_complement.
  cbn [List.filter app]. rewrite Hm. reflexivity.
Qed.

(** Text stored in a TEXT column is stored as it is. *)
Lemma stored_text s : stored TEXT (VStr s) = Ok (SqlText s).
Proof. reflexivity. Qed.

Lemma sql_eqb_text s : sql_eqb (SqlText s) (SqlText s) = true.
Proof. apply String.eqb_refl. Qed.

(** What a TEXT column stores is a text or NULL. *)
Lemma stored_text_column v x :
  stored TEXT v = Ok x -> x = SqlNull \/ exists s, x = SqlText s.
Proof.
  unfold Store.stored. unbind.
  destruct (bind_param v) as [y|e]; [|discriminate].
  intros H. injection H as <-. destruct y; simpl; eauto.
Qed.

(** *** upsert of a profile *)

Lemma stored_columns_clock (payload : gmap string pyval) now1 now2 :
  is_Some (payload !! "last_updated") ->
  stored_columns payload (company_columns now1)
  = stored_columns payload (company_columns now2).
Proof.
  intros [v Hv].
  assert (dict_get payload "last_updated" (VStr now1)
          = dict_get payload "last_updated" (VStr now2)) as Hd
    by (unfold dict_get; rewrite Hv; reflexivity).
  unfold company_columns. cbn [Store.stored_columns].
  rewrite Hd. reflexivity.
Qed.


(** *** Full replace of the price history *)

Lemma history_values_date label (row : gmap string pyval) sd so sh sl sc sv :
  history_values label row = Ok (sd, so, sh, sl, sc, sv) ->
  exists d, strftime label = Ok d /\ sd = SqlText d.
Proof.
  unfold Store.history_values. unbind. intros H.
  destruct (strftime label) as [d|e]; [|discriminate].
  rewrite stored_text in H. bound_ok H.
  injection H as <- _ _ _ _ _. exists d. split; reflexivity.
Qed.

(** The loop appends one row per record of the batch, in order, each for
    the symbol and with the record's date. *)
Lemma insert_history_rows_appends clock (stock_df : dataframe) :
  forall k symbol (t t' : table history_row),
    insert_history_rows clock k symbol stock_df t = Ok t' ->
    exists new,
      rows t' = (rows t ++ new)%list /\
      last_id t' = last_id t + Z.of_nat (length stock_df) /\
      Forall (fun r => history_symbol r = symbol) new /\
      Forall2 (fun r record =>
                 exists d, strftime record.1 = Ok d /\
                           history_date r = SqlText d)
        new stock_df.
Proof.
  induction stock_df as [|[label row] rest IH]; intros k symbol t t' H.
  - injection H as <-. exists []. rewrite app_nil_r.
    repeat split; [simpl; lia|constructor|constructor].
  - cbn [Store.insert_history_rows] in H. unbind.
    destruct (history_values label row) as [[[[[[sd so] sh] sl] sc] sv]|e]
      eqn:Hv; [|discriminate].
    destruct (history_values_date _ _ _ _ _ _ _ _ Hv) as [d [Hd ->]].
    destruct (IH _ _ _ _ H) as (new & Hrows & Hid & Hsym & Hdates).
    cbn [insert_row rows last_id] in Hrows, Hid.
    eexists (_ :: new). rewrite Hrows, <- app_assoc. split; [reflexivity|].
    split; [rewrite Hid; simpl length; lia|].
    split; constructor; try assumption; [reflexivity|].
    exists d. split; [exact Hd|reflexivity].
Qed.


(** *** Replacing by nothing *)

(** C10. Replacing the history or the executives of a symbol by an empty
    sequence succeeds: it returns [True], deletes every row of the symbol,
    inserts no row, and leaves the rows of the other symbols; no row of
    the symbol is left. *)
Theorem replace_by_empty_clears (clock : nat -> string) (symbol : string)
    (db : database) :
  let h := insert_stock_history clock symbol [] db in
  let e := insert_executives clock symbol [] db in
  h.2 = true /\
  select_where history_symbol (SqlText symbol) (stock_history h.1) = [] /\
  rows (stock_history h.1)
  = List.filter (fun r => negb (sql_eqb (history_symbol r) (SqlText symbol)))
      (rows (stock_history db)) /\
  last_id (stock_history h.1) = last_id (stock_history db) /\
  e.2 = true /\
  select_where executive_symbol (SqlText symbol) (executives e.1) = [] /\
  rows (executives e.1)
  = List.filter (fun r => negb (sql_eqb (executive_symbol r) (SqlText symbol)))
      (rows (executives db)) /\
  last_id (executives e.1) = last_id (executives db).
Proof.
  cbv zeta. unfold Store.insert_stock_history, Store.insert_executives.
  unbind. rewrite stored_text.
  cbn [Store.insert_history_rows Store.insert_executive_rows fst snd
       stock_history executives].
  repeat split; try reflexivity; apply select_after_delete.
Qed.

End Engine.

Definition old_history_row (id : Z) (symbol date : string) : history_row :=
  {| history_id := id; history_symbol := SqlText symbol;
     history_date := SqlText date;
     open_price := SqlReal (FNum 1); high_price := SqlReal (FNum 1);
     low_price := SqlReal (FNum 1); close_price := SqlReal (FNum 1);
     history_volume := SqlInteger 10;
     history_created_at := "2023-12-31 00:00:00" |}.

(** A store that holds three history rows of ACME and one of another
    symbol. *)
Definition store_with_history : database :=
  {| companies := empty_table;
     stock_history :=
       {| rows := [ old_history_row 1 "ACME" "2023-12-27";
                    old_history_row 2 "OTHR" "2023-12-27";
                    old_history_row 3 "ACME" "2023-12-28";
                    old_history_row 4 "ACME" "2023-12-29" ];
          last_id := 4 |};
     executives := empty_table;
     financial_ratios := empty_table |}.

Definition sample_batch : dataframe :=
  [ (Timestamp "2024-01-02",
     <["Open" := VFloat (FNum 10)]> (<["Close" := VFloat (FNum 11)]>
       (<["Volume" := VInt 1000]> ∅)));
    (Timestamp "2024-01-03",
     <["Open" := VFloat (FNum 11)]> (<["Close" := VFloat (FNum (25 # 2))]>
       (<["Volume" := VFloat (FNum 2000)]> ∅))) ].

Definition replaced_store : database :=
  (insert_stock_history (fun _ => "") (fun _ => None)
     (fun _ => "2024-01-03 08:00:00") "ACME" sample_batch
     store_with_history).1.


(** Three rows before, two after: the rows of the batch. *)
Example replaced_store_rows :
  List.map history_id
    (select_where history_symbol (SqlText "ACME")
       (stock_history store_with_history)) = [1; 3; 4] /\
  List.map history_id
    (select_where history_symbol (SqlText "ACME")
       (stock_history replaced_store)) = [5; 6] /\
  List.map history_id (rows (stock_history replaced_store)) = [2; 5; 6].
Proof. repeat split; vm_compute; reflexivity. Qed.

(** Replacing by nothing clears rows that were there: it is not a
    no-op. *)
Example replace_by_empty_not_noop :
  let db := (insert_stock_history (fun _ => "") (fun _ => None)
               (fun _ => "2024-01-03 08:00:00") "ACME" [] store_with_history).1
  in List.map history_id (rows (stock_history db)) = [2].
Proof. vm_compute. reflexivity. Qed.

(** A batch with a record that cannot be converted is not written at all:
    the call returns [False] and the old rows stay. *)
Example replace_history_failure_keeps :
  insert_stock_history (fun _ => "") (fun _ => None)
    (fun _ => "2024-01-03 08:00:00") "ACME"
    [ (Timestamp "2024-01-02", <["Volume" := VFloat FNan]> ∅) ]
    store_with_history
  = (store_with_history, false).
Proof. vm_compute. reflexivity. Qed.

Definition sample_payload : gmap string pyval :=
  <["symbol" := VStr "ACME"]> (<["company_name" := VStr "Acme Corp"]>
  (<["market_cap" := VFloat (FNum (inject_Z (25 * 10 ^ 11)))]>
  (<["last_updated" := VStr "2024-01-02 03:04:05"]> ∅))).

Definition sample_store : database :=
  fst (insert_company_data (fun _ => "") (fun _ => None)
         "2024-01-02 03:04:06" "2024-01-02 08:04:06" sample_payload
         empty_database).


End StoreSpec.

(** * Further properties of the collector *)

Module ExecutivesSpec.
Import PyStr PyFloat PyVal Collector NormalizerSpec.

(** The entry the loop appends for an officer that is a dict. *)
Definition executive_entry (entries : list (string * pyval))
  : gmap string pyval :=
  <["name" := entries_get entries "name" (VStr "N/A")]>
  (<["title" := entries_get entries "title" (VStr "N/A")]>
  (<["age" := entries_get entries "age" (VInt 0)]>
  (<["total_pay" := entries_get entries "totalPay" (VInt 0)]> ∅))).

Definition executive_keys : gset string :=
  {[ "name"; "title"; "age"; "total_pay" ]}.

Lemma executive_entry_keys entries : dom (executive_entry entries) = executive_keys.
Proof.
  unfold executive_entry, executive_keys.
  rewrite !dom_insert_L, dom_empty_L. set_solver.
Qed.

Lemma executives_of_shape officers : forall execs,
  executives_of officers = Ok execs ->
  length execs = length officers /\
  Forall (fun e : gmap string pyval => dom e = executive_keys) execs.
Proof.
  induction officers as [|o officers IH]; intros execs H; simpl in H.
  - injection H as <-. split; [reflexivity|constructor].
  - unbind. destruct o; simpl in H; try discriminate.
    destruct (executives_of officers) as [es|e]; [|discriminate].
    injection H as <-. destruct (IH es eq_refl) as [Hl Hk].
    split; [simpl; congruence|].
    constructor; [apply executive_entry_keys|exact Hk].
Qed.

Lemma take_ascii_bound n (t : string) :
  (length (list_ascii_of_string (PyStr.take n t)) <= n)%nat.
Proof.
  revert t. induction n as [|n IH]; intros [|c t]; simpl; try lia.
  specialize (IH t). lia.
Qed.

Lemma Ok_inj {A} (a b : A) : Ok a = Ok b -> a = b.
Proof. congruence. Qed.

Lemma first_officers_text s :
  first_officers (VStr s)
  = Ok (List.map (fun c => VStr (String c EmptyString))
          (list_ascii_of_string (PyStr.take 5 s))).
Proof. reflexivity. Qed.

Lemma first_officers_list items :
  first_officers (VList items) = Ok (List.firstn 5 items).
Proof. reflexivity. Qed.

Lemma first_officers_bound officers selected :
  first_officers officers = Ok selected -> (length selected <= 5)%nat.
Proof.
  destruct officers as [| b | z | f | s | items | entries]; intros H;
    try discriminate.
  - rewrite first_officers_text in H. apply Ok_inj in H. rewrite <- H.
    rewrite length_map. apply take_ascii_bound.
  - apply Ok_inj in H. rewrite <- H. apply List.firstn_le_length.
Qed.

(** X1. Whatever the provider replies, the executives fetch returns and
    does not raise; it returns at most five executives, and each of them
    has exactly the keys [name], [title], [age] and [total_pay]. *)
Theorem get_executives_at_most_five
    (reply : result (option (gmap string pyval))) :
  exists execs,
    get_executives reply = Ok execs /\
    (length execs <= 5)%nat /\
    Forall (fun e : gmap string pyval => dom e = executive_keys) execs.
Proof.
  unfold get_executives, catch_all. unbind.
  destruct reply as [[bag|]|e];
    try (exists []; repeat split; [simpl; lia|constructor]).
  destruct (bag !! "companyOfficers") as [officers|];
    [|exists []; repeat split; [simpl; lia|constructor]].
  destruct (truthy officers);
    [|exists []; repeat split; [simpl; lia|constructor]].
  destruct (first_officers officers) as [selected|e] eqn:Hsel;
    [|exists []; repeat split; [simpl; lia|constructor]].
  destruct (executives_of selected) as [execs|e] eqn:Hex;
    [|exists []; repeat split; [simpl; lia|constructor]].
  destruct (executives_of_shape _ _ Hex) as [Hl Hk].
  exists execs. split; [reflexivity|]. split; [|exact Hk].
  rewrite Hl. eapply first_officers_bound; eauto.
Qed.

Lemma executives_of_dicts (dicts : list (list (string * pyval))) :
  executives_of (List.map VDict dicts) = Ok (List.map executive_entry dicts).
Proof.
  induction dicts as [|d dicts IH]; simpl; [reflexivity|].
  unbind. rewrite IH. reflexivity.
Qed.

Lemma executives_of_not_dict officers :
  Exists (fun o => forall entries, o <> VDict entries) officers ->
  exists e, executives_of officers = Raise e.
Proof.
  induction 1 as [o officers Ho|o officers _ IH]; simpl; unbind.
  - destruct o; try (eexists; reflexivity).
    exfalso. eapply Ho. reflexivity.
  - destruct IH as [e ->]. destruct (executive_of o); eexists; reflexivity.
Qed.

(** X2. When the bag lists the officers as dicts, the fetch returns one
    executive for each of the first five, in order, with ["N/A"] for a
    missing name or title and 0 for a missing age or pay; officers after
    the fifth are ignored. *)
Theorem get_executives_first_five (bag : gmap string pyval)
    (dicts : list (list (string * pyval))) :
  bag !! "companyOfficers" = Some (VList (List.map VDict dicts)) ->
  get_executives (Ok (Some bag))
  = Ok (List.map executive_entry (List.firstn 5 dicts)).
Proof.
  intros Hb. unfold get_executives, catch_all. unbind. rewrite Hb.
  assert (truthy (VList (List.map VDict dicts))
          = negb (Nat.eqb (length dicts) 0)) as ->
    by (destruct dicts; reflexivity).
  destruct (Nat.eqb (length dicts) 0) eqn:E.
  - apply Nat.eqb_eq, List.length_zero_iff_nil in E. subst dicts. reflexivity.
  - cbn [negb]. rewrite first_officers_list, List.firstn_map,
      executives_of_dicts. reflexivity.
Qed.

Lemma get_executives_first_five_witness :
  get_executives
    (Ok (Some (<["companyOfficers" :=
                 VList (List.map VDict
                          [ [("name", VStr "Ann Lee"); ("age", VInt 51)];
                            [("title", VStr "CFO")] ])]> ∅)))
  = Ok (List.map executive_entry
          (List.firstn 5 [ [("name", VStr "Ann Lee"); ("age", VInt 51)];
                           [("title", VStr "CFO")] ])).
Proof.
  apply (get_executives_first_five
           (<["companyOfficers" :=
               VList (List.map VDict
                        [ [("name", VStr "Ann Lee"); ("age", VInt 51)];
                          [("title", VStr "CFO")] ])]> ∅)).
  vm_compute. reflexivity.
Defined.

(** X3. One officer among the first five that is not a dict loses them
    all: the fetch returns the empty list, not the officers before it. *)
Theorem get_executives_all_or_nothing (bag : gmap string pyval)
    (officers : list pyval) :
  bag !! "companyOfficers" = Some (VList officers) ->
  Exists (fun o => forall entries, o <> VDict entries)
    (List.firstn 5 officers) ->
  get_executives (Ok (Some bag)) = Ok [].
Proof.
  intros Hb Hbad. unfold get_executives, catch_all. unbind. rewrite Hb.
  destruct (truthy (VList officers)); [|reflexivity].
  rewrite first_officers_list.
  destruct (executives_of_not_dict _ Hbad) as [e ->]. reflexivity.
Qed.

Lemma get_executives_all_or_nothing_witness :
  get_executives
    (Ok (Some (<["companyOfficers" :=
                 VList [ VDict [("name", VStr "Ann Lee")]; VStr "Bob" ]]> ∅)))
  = Ok [].
Proof.
  apply (get_executives_all_or_nothing _
           [ VDict [("name", VStr "Ann Lee")]; VStr "Bob" ]).
  - vm_compute. reflexivity.
  - cbn [List.firstn]. apply Exists_cons_tl. apply Exists_cons_hd.
    intros entries. discriminate.
Defined.

End ExecutivesSpec.

Module ScraperSpec.
Import PyStr PyFloat PyVal Collector NormalizerSpec PipelineSpec.

Lemma scrape_market_cap_other els (data : gmap string pyval) key :
  key <> "market_cap" -> scrape_market_cap els data !! key = data !! key.
Proof.
  intros Hne. induction els as [|text els IH]; simpl; [reflexivity|].
  destruct (nonempty text); [|exact IH].
  destruct (_parse_market_value text); [|reflexivity].
  rewrite lookup_insert_ne by congruence. reflexivity.
Qed.

Lemma scrape_market_cap_own els (d1 d2 : gmap string pyval) :
  d1 !! "market_cap" = d2 !! "market_cap" ->
  scrape_market_cap els d1 !! "market_cap"
  = scrape_market_cap els d2 !! "market_cap".
Proof.
  intros Hd. induction els as [|text els IH]; simpl; [exact Hd|].
  destruct (nonempty text); [|exact IH].
  destruct (_parse_market_value text); [|exact Hd].
  rewrite !lookup_insert_eq. reflexivity.
Qed.

Lemma scrape_price_other el (data : gmap string pyval) key :
  key <> "current_price" -> scrape_price el data !! key = data !! key.
Proof.
  intros Hne. unfold scrape_price. destruct el as [text|]; [|reflexivity].
  destruct (nonempty text); [|reflexivity].
  destruct (float_of_string _); [|reflexivity].
  rewrite lookup_insert_ne by congruence. reflexivity.
Qed.

Lemma parse_market_value_numeric text v :
  _parse_market_value text = Ok v -> v = VInt 0 \/ exists f, v = VFloat f.
Proof.
  unfold _parse_market_value, catch_all. cbv zeta. unbind.
  destruct (contains "T" (normalise text));
    [|destruct (contains "B" (normalise text));
      [|destruct (contains "M" (normalise text))]];
    match goal with
    | |- context [float_of_string ?t] => destruct (float_of_string t)
    end; intros H; injection H as <-; eauto.
Qed.

(** X4. The scrape returns a mapping for every outcome of the request and
    does not raise.  The mapping is empty when the request fails or the
    status is not 200; it never has a key besides [current_price] and
    [market_cap]; the price is a float and the market capitalisation a
    float or 0. *)
Theorem scrape_is_best_effort (page : http_outcome) :
  exists data : gmap string pyval,
    scrape_yahoo_finance_safe page = Ok data /\
    dom data ⊆ {[ "current_price"; "market_cap" ]} /\
    (forall v, data !! "current_price" = Some v -> exists f, v = VFloat f) /\
    (forall v, data !! "market_cap" = Some v ->
               v = VInt 0 \/ exists f, v = VFloat f) /\
    (match page with
     | RequestFailed => data = ∅
     | Response status _ _ => status <> 200 -> data = ∅
     end).
Proof.
  destruct (scrape_returns page) as [data Hd]. exists data.
  split; [exact Hd|]. split; [|split; [|split]].
  - intros k Hk. apply elem_of_dom in Hk as [v Hv].
    destruct (scrape_keys _ _ _ _ Hd Hv) as [-> | ->]; set_solver.
  - unfold scrape_yahoo_finance_safe, catch_all in Hd.
    destruct page as [|status el els]; [injection Hd as <-; intros v Hv;
      rewrite lookup_empty in Hv; discriminate|].
    destruct (negb (status =? 200)%Z); injection Hd as <-; intros v Hv;
      [rewrite lookup_empty in Hv; discriminate|].
    rewrite scrape_market_cap_other in Hv by discriminate.
    unfold scrape_price in Hv. destruct el as [text|];
      [|rewrite lookup_empty in Hv; discriminate].
    destruct (nonempty text); [|rewrite lookup_empty in Hv; discriminate].
    destruct (float_of_string _) as [f|e];
      [|rewrite lookup_empty in Hv; discriminate].
    rewrite lookup_insert_eq in Hv. injection Hv as <-. eauto.
  - unfold scrape_yahoo_finance_safe, catch_all in Hd.
    destruct page as [|status el els]; [injection Hd as <-; intros v Hv;
      rewrite lookup_empty in Hv; discriminate|].
    destruct (negb (status =? 200)%Z); injection Hd as <-; intros v Hv;
      [rewrite lookup_empty in Hv; discriminate|].
    assert (forall d0 : gmap string pyval,
              d0 !! "market_cap" = None ->
              scrape_market_cap els d0 !! "market_cap" = Some v ->
              v = VInt 0 \/ exists f, v = VFloat f) as Hloop.
    { clear Hv. induction els as [|text els IH]; simpl; intros d0 Hn Hv;
        [congruence|].
      destruct (nonempty text); [|eauto].
      destruct (_parse_market_value text) as [x|e] eqn:Hp; [|congruence].
      rewrite lookup_insert_eq in Hv. injection Hv as <-.
      eapply parse_market_value_numeric; eauto. }
    apply (Hloop (scrape_price el ∅)); [|exact Hv].
    rewrite scrape_price_other by discriminate. apply lookup_empty.
  - unfold scrape_yahoo_finance_safe, catch_all in Hd.
    destruct page as [|status el els]; [injection Hd as <-; reflexivity|].
    intros Hs. destruct (status =? 200)%Z eqn:E;
      [apply Z.eqb_eq in E; contradiction|].
    simpl in Hd. injection Hd as <-. reflexivity.
Qed.

(** X5. The two fields of the page are read independently: the market
    capitalisation in the result does not depend on the price element
    (missing, empty or unreadable), nor the price on the market
    capitalisation cells. *)
Theorem scrape_fields_independent (el el' : option string)
    (els els' : list string) :
  exists d d1 d2 : gmap string pyval,
    scrape_yahoo_finance_safe (Response 200 el els) = Ok d /\
    scrape_yahoo_finance_safe (Response 200 el' els) = Ok d1 /\
    scrape_yahoo_finance_safe (Response 200 el els') = Ok d2 /\
    d !! "market_cap" = d1 !! "market_cap" /\
    d !! "current_price" = d2 !! "current_price".
Proof.
  eexists _, _, _. repeat split; try reflexivity.
  - apply scrape_market_cap_own.
    rewrite !scrape_price_other by discriminate. reflexivity.
  - rewrite !scrape_market_cap_other by discriminate. reflexivity.
Qed.

(** X6. Of the market capitalisation cells only the first one with a text
    counts: cells with an empty text before it are skipped, the cells
    after it are never read, and the result holds what the parser makes
    of that text (0 when it does not parse). *)
Theorem scrape_first_market_cap_cell (el : option string)
    (blanks : list string) (text : string) (rest : list string)
    (data : gmap string pyval) :
  Forall (fun t => t = "") blanks ->
  text <> "" ->
  scrape_yahoo_finance_safe (Response 200 el (blanks ++ text :: rest))
  = Ok data ->
  exists v, _parse_market_value text = Ok v /\
            data !! "market_cap" = Some v.
Proof.
  intros Hb Ht Hd.
  unfold scrape_yahoo_finance_safe, catch_all in Hd. simpl in Hd.
  injection Hd as <-.
  generalize (scrape_price el ∅) as d0. intros d0.
  induction Hb as [|b blanks -> _ IH]; simpl.
  - assert (nonempty text = true) as ->.
    { unfold nonempty. destruct (String.eqb text "") eqn:E; [|reflexivity].
      apply String.eqb_eq in E. contradiction. }
    destruct (_parse_market_value text) as [v|e] eqn:Hp.
    + exists v. split; [reflexivity|]. apply lookup_insert_eq.
    + exfalso. revert Hp. unfold _parse_market_value, catch_all.
      match goal with |- match ?b with _ => _ end = _ -> _ => destruct b end;
        discriminate.
  - exact IH.
Qed.

Lemma scrape_first_market_cap_cell_witness :
  exists v, _parse_market_value "1.2B" = Ok v /\
            (<["market_cap" := VFloat (FNum (inject_Z (12 * 10 ^ 8)))]>
               (∅ : gmap string pyval)) !! "market_cap" = Some v.
Proof.
  refine (scrape_first_market_cap_cell None [""; ""] "1.2B" ["9T"] _ _ _ _).
  - repeat constructor.
  - discriminate.
  - vm_compute. reflexivity.
Defined.

End ScraperSpec.

Module ProfileSpec.
Import PyStr PyFloat PyVal Collector NormalizerSpec NumberSpec PipelineSpec.

(** The keys of a profile: the columns of the companies table the
    collector fills. *)
Definition profile_keys : gset string :=
  {[ "symbol"; "company_name"; "sector"; "industry"; "market_cap";
     "enterprise_value"; "revenue"; "employees"; "founded_year";
     "headquarters"; "website"; "description"; "current_price";
     "previous_close"; "volume"; "avg_volume"; "pe_ratio"; "pb_ratio";
     "dividend_yield"; "last_updated" ]}.

Lemma primary_profile_keys now symbol (info cd : gmap string pyval) :
  primary_profile now symbol info = Ok cd ->
  dom cd = profile_keys /\
  cd !! "symbol" = Some (VStr (upper symbol)) /\
  cd !! "last_updated" = Some (VStr now) /\
  cd !! "founded_year" = Some (VInt 0).
Proof.
  unfold primary_profile. cbv zeta. unbind. intros H.
  bound_ok H. injection H as <-.
  split; [|repeat split; by simplify_map_eq].
  rewrite !dom_insert_L, dom_empty_L. unfold profile_keys. set_solver.
Qed.

(** What [get_company_basic_info] returns when it returns a profile. *)
Lemma profile_inversion now symbol reply page (profile : gmap string pyval) :
  get_company_basic_info now symbol reply page = Ok (Some profile) ->
  exists (info cd scraped : gmap string pyval),
    reply = Ok (Some info) /\ sparse (Some info) = false /\
    primary_profile now symbol info = Ok cd /\
    scrape_yahoo_finance_safe page = Ok scraped /\
    profile = merge_scraped cd scraped.
Proof.
  unfold get_company_basic_info, catch_all. unbind. intros H.
  destruct reply as [info|e]; [|discriminate].
  destruct (sparse info) eqn:Hs; [discriminate|].
  destruct info as [info|]; [|discriminate]. simpl default in H.
  destruct (primary_profile now symbol info) as [cd|e] eqn:Hcd;
    [|discriminate].
  destruct (scrape_returns page) as [scraped Hscr]. rewrite Hscr in H.
  exists info, cd, scraped. repeat split; try assumption.
  destruct (Nat.eqb (size scraped) 0) eqn:Hz; simpl in H; injection H as <-.
  - apply Nat.eqb_eq, map_size_empty_inv in Hz. subst scraped.
    unfold merge_scraped. rewrite map_to_list_empty. reflexivity.
  - reflexivity.
Qed.

Lemma merge_keeps_keys (cd scraped : gmap string pyval) :
  dom scraped ⊆ dom cd -> dom (merge_scraped cd scraped) = dom cd.
Proof.
  intros Hsub. apply set_eq. intros k. rewrite !elem_of_dom.
  rewrite merge_scraped_lookup.
  destruct (scraped !! k) as [sv|] eqn:E; [|reflexivity].
  assert (is_Some (cd !! k)) as Hk.
  { apply elem_of_dom, Hsub, elem_of_dom. eauto. }
  destruct (overwrites sv (dict_get cd k VNone)); [|reflexivity].
  split; eauto.
Qed.

(** X7. A profile the collector returns has exactly the twenty keys of
    the companies columns, whatever the bag and the page hold: its symbol
    is the requested one in upper case, its stamp the time of the
    collection, its founding year 0.  In particular it is never empty. *)
Theorem profile_has_the_columns (now symbol : string)
    (reply : result (option (gmap string pyval))) (page : http_outcome)
    (profile : gmap string pyval) :
  get_company_basic_info now symbol reply page = Ok (Some profile) ->
  dom profile = profile_keys /\
  profile !! "symbol" = Some (VStr (upper symbol)) /\
  profile !! "last_updated" = Some (VStr now) /\
  profile !! "founded_year" = Some (VInt 0) /\
  size profile = 20%nat.
Proof.
  intros H.
  destruct (profile_inversion _ _ _ _ _ H)
    as (info & cd & scraped & _ & _ & Hcd & Hscr & ->).
  destruct (primary_profile_keys _ _ _ _ Hcd) as (Hdom & Hsym & Hst & Hfy).
  assert (forall k, k <> "current_price" -> k <> "market_cap" ->
                    scraped !! k = None) as Hother.
  { intros k H1 H2. destruct (scraped !! k) as [sv|] eqn:E; [|reflexivity].
    destruct (scrape_keys _ _ _ _ Hscr E); contradiction. }
  assert (dom (merge_scraped cd scraped) = profile_keys) as Hd.
  { rewrite merge_keeps_keys; [exact Hdom|].
    intros k Hk. apply elem_of_dom in Hk as [sv Hsv]. rewrite Hdom.
    destruct (scrape_keys _ _ _ _ Hscr Hsv) as [-> | ->];
      unfold profile_keys; set_solver. }
  split; [exact Hd|].
  rewrite !merge_scraped_lookup, !Hother by discriminate.
  repeat split; try assumption.
  rewrite <- size_dom, Hd. reflexivity.
Qed.

Lemma profile_has_the_columns_witness :
  dom sample_profile = profile_keys /\
  sample_profile !! "symbol" = Some (VStr (upper "acme")) /\
  sample_profile !! "last_updated" = Some (VStr "2024-01-02 03:04:05") /\
  sample_profile !! "founded_year" = Some (VInt 0) /\
  size sample_profile = 20%nat.
Proof.
  apply (profile_has_the_columns "2024-01-02 03:04:05" "acme"
           (Ok (Some sample_info)) sample_page).
  vm_compute. reflexivity.
Defined.

(** X8. The page can only change the price and the market
    capitalisation: under every other key the profile holds what the
    primary source gave, and when the scrape yields nothing (failed
    request, status other than 200, nothing readable) the profile is the
    primary profile. *)
Theorem scrape_touches_two_keys (now symbol : string)
    (info : gmap string pyval) (page : http_outcome)
    (profile : gmap string pyval) :
  get_company_basic_info now symbol (Ok (Some info)) page = Ok (Some profile) ->
  exists cd : gmap string pyval,
    primary_profile now symbol info = Ok cd /\
    (forall k, k <> "current_price" -> k <> "market_cap" ->
               profile !! k = cd !! k) /\
    (scrape_yahoo_finance_safe page = Ok ∅ -> profile = cd).
Proof.
  intros H.
  destruct (profile_inversion _ _ _ _ _ H)
    as (info' & cd & scraped & Hi & _ & Hcd & Hscr & ->).
  injection Hi as <-. exists cd. split; [exact Hcd|]. split.
  - intros k H1 H2. rewrite merge_scraped_lookup.
    destruct (scraped !! k) as [sv|] eqn:E; [|reflexivity].
    destruct (scrape_keys _ _ _ _ Hscr E); contradiction.
  - intros He. rewrite Hscr in He. injection He as ->.
    unfold merge_scraped. rewrite map_to_list_empty. reflexivity.
Qed.

Lemma scrape_touches_two_keys_witness :
  exists cd : gmap string pyval,
    primary_profile "2024-01-02 03:04:05" "acme" sample_info = Ok cd /\
    (forall k, k <> "current_price" -> k <> "market_cap" ->
               sample_profile !! k = cd !! k) /\
    (scrape_yahoo_finance_safe sample_page = Ok ∅ -> sample_profile = cd).
Proof.
  apply (scrape_touches_two_keys "2024-01-02 03:04:05" "acme" sample_info
           sample_page sample_profile).
  vm_compute. reflexivity.
Defined.

(** The numeric fields of the bag the profile is built from. *)
Definition numeric_fields : list string :=
  [ "marketCap"; "enterpriseValue"; "totalRevenue"; "fullTimeEmployees";
    "currentPrice"; "previousClose"; "volume"; "averageVolume";
    "trailingPE"; "priceToBook"; "dividendYield" ].

Lemma safe_get_number_overflows (info : gmap string pyval) key default z :
  info !! key = Some (VInt z) -> (overflow_threshold <= Z.abs z)%Z ->
  _safe_get_number info key default = Raise OverflowError.
Proof.
  intros Hk Hz. unfold _safe_get_number, catch, dict_get. rewrite Hk.
  unbind. simpl. unfold float_of_int.
  apply Z.leb_le in Hz. rewrite Hz. reflexivity.
Qed.

Lemma bind_raises {A B} (r : result A) (k : A -> result B) :
  (forall a, exists e, k a = Raise e) -> exists e, bind r k = Raise e.
Proof. intros Hk. destruct r as [a|e]; [apply Hk|eexists; reflexivity]. Qed.

Lemma bind_raise_now {A B} (r : result A) (k : A -> result B) e :
  r = Raise e -> exists e', bind r k = Raise e'.
Proof. intros ->. eexists; reflexivity. Qed.

(** X9. One numeric field that holds an integer too large for a double
    loses the whole profile: the collector returns [None] although the
    bag is not sparse. *)
Theorem overflow_loses_the_profile (now symbol : string)
    (info : gmap string pyval) (page : http_outcome) (key : string) (z : Z) :
  In key numeric_fields ->
  info !! key = Some (VInt z) ->
  (overflow_threshold <= Z.abs z)%Z ->
  get_company_basic_info now symbol (Ok (Some info)) page = Ok None.
Proof.
  intros Hin Hk Hz.
  assert (exists e, primary_profile now symbol info = Raise e) as [e He].
  { pose proof (fun d => safe_get_number_overflows info key d z Hk Hz) as Hov.
    unfold primary_profile. cbv zeta. unfold mbind, result_bind.
    simpl in Hin.
    repeat (destruct Hin as [<-|Hin];
            [repeat first [ eapply bind_raise_now; apply Hov
                          | apply bind_raises; intros ? ] |]).
    contradiction. }
  unfold get_company_basic_info, catch_all. unbind.
  destruct (sparse (Some info)); [reflexivity|].
  simpl default. rewrite He. reflexivity.
Qed.

Definition overflowing_info : gmap string pyval :=
  <["volume" := VInt (2 ^ 1024)]> sample_info.

Lemma overflow_loses_the_profile_witness :
  get_company_basic_info "2024-01-02 03:04:05" "acme"
    (Ok (Some overflowing_info)) sample_page = Ok None.
Proof.
  apply (overflow_loses_the_profile _ _ overflowing_info sample_page
           "volume" (2 ^ 1024)).
  - simpl. tauto.
  - vm_compute. reflexivity.
  - vm_compute. discriminate.
Defined.

End ProfileSpec.

(** ** More of the Python strings *)

Module PyStrMore.
Import PyStr.

Definition lower_char (c : ascii) : ascii :=
  if ((65 <=? code c) && (code c <=? 90))%N
  then ascii_of_N (code c + 32)
  else c.

(** [s.lower()] *)
Fixpoint lower (s : string) : string :=
  match s with
  | EmptyString => EmptyString
  | String c s' => String (lower_char c) (lower s')
  end.

(** [s.split(sep)] for a one-character [sep]: the pieces between the
    separators, one more than there are separators. *)
Fixpoint split (sep : ascii) (s : string) : list string :=
  match s with
  | EmptyString => [EmptyString]
  | String c s' =>
      if Ascii.eqb c sep then EmptyString :: split sep s'
      else
        match split sep s' with
        | piece :: pieces => String c piece :: pieces
        | [] => [String c EmptyString]
        end
  end.

(** The number of occurrences of a character. *)
Fixpoint count (c : ascii) (s : string) : nat :=
  match s with
  | EmptyString => O
  | String d s' => (if Ascii.eqb d c then 1 else 0) + count c s'
  end.

End PyStrMore.

Module TextSpec.
Import PyStr PyStrMore PyFloat PyVal Collector NormalizerSpec NumberSpec.

Lemma each_ascii (P : ascii -> Prop) :
  (forall b0 b1 b2 b3 b4 b5 b6 b7, P (Ascii b0 b1 b2 b3 b4 b5 b6 b7)) ->
  forall c, P c.
Proof. intros H [b0 b1 b2 b3 b4 b5 b6 b7]. apply H. Qed.

Lemma upper_char_upper c : upper_char (upper_char c) = upper_char c.
Proof.
  revert c. apply each_ascii.
  intros [] [] [] [] [] [] [] []; vm_compute; reflexivity.
Qed.

Lemma upper_char_lower c : upper_char (lower_char c) = upper_char c.
Proof.
  revert c. apply each_ascii.
  intros [] [] [] [] [] [] [] []; vm_compute; reflexivity.
Qed.

Lemma isspace_upper c : isspace (upper_char c) = isspace c.
Proof.
  revert c. apply each_ascii.
  intros [] [] [] [] [] [] [] []; vm_compute; reflexivity.
Qed.

Lemma isspace_lower c : isspace (lower_char c) = isspace c.
Proof.
  revert c. apply each_ascii.
  intros [] [] [] [] [] [] [] []; vm_compute; reflexivity.
Qed.

(** Mapping the characters by a function that keeps white space white
    and the rest not white commutes with stripping. *)
Section MapStrip.

Variable f : ascii -> ascii.
Hypothesis f_space : forall c, isspace (f c) = isspace c.

Fixpoint map_chars (s : string) : string :=
  match s with
  | EmptyString => EmptyString
  | String c s' => String (f c) (map_chars s')
  end.

Lemma lstrip_map s : lstrip (map_chars s) = map_chars (lstrip s).
Proof.
  induction s as [|c s IH]; simpl; [reflexivity|].
  rewrite f_space. destruct (isspace c); [exact IH|reflexivity].
Qed.

Lemma rstrip_map s : rstrip (map_chars s) = map_chars (rstrip s).
Proof.
  induction s as [|c s IH]; simpl; [reflexivity|].
  rewrite IH, f_space.
  destruct (rstrip s); simpl; [destruct (isspace c)|]; reflexivity.
Qed.

Lemma strip_map s : strip (map_chars s) = map_chars (strip s).
Proof. unfold strip. rewrite lstrip_map, rstrip_map. reflexivity. Qed.

End MapStrip.

Lemma upper_as_map s : upper s = map_chars upper_char s.
Proof. induction s as [|c s IH]; simpl; congruence. Qed.

Lemma lower_as_map s : lower s = map_chars lower_char s.
Proof. induction s as [|c s IH]; simpl; congruence. Qed.

Lemma upper_upper s : upper (upper s) = upper s.
Proof.
  induction s as [|c s IH]; simpl; [reflexivity|].
  rewrite upper_char_upper, IH. reflexivity.
Qed.

Lemma upper_lower s : upper (lower s) = upper s.
Proof.
  induction s as [|c s IH]; simpl; [reflexivity|].
  rewrite upper_char_lower, IH. reflexivity.
Qed.

Lemma strip_upper s : strip (upper s) = upper (strip s).
Proof.
  rewrite (upper_as_map s), (upper_as_map (strip s)).
  apply strip_map, isspace_upper.
Qed.

Lemma strip_lower s : strip (lower s) = lower (strip s).
Proof.
  rewrite (lower_as_map s), (lower_as_map (strip s)).
  apply strip_map, isspace_lower.
Qed.

Lemma normalise_upper s : normalise (upper s) = normalise s.
Proof. unfold normalise. rewrite strip_upper, upper_upper. reflexivity. Qed.

Lemma normalise_lower s : normalise (lower s) = normalise s.
Proof. unfold normalise. rewrite strip_lower, upper_lower. reflexivity. Qed.

(** X10. The market-value parser does not look at the letter case: a text
    gives the same result in upper case, in lower case and as it is, so
    ["2.5t"] and ["1e3"] read as ["2.5T"] and ["1E3"]. *)
Theorem parse_market_value_ignores_case (value_str : string) :
  _parse_market_value (upper value_str) = _parse_market_value value_str /\
  _parse_market_value (lower value_str) = _parse_market_value value_str.
Proof.
  unfold _parse_market_value. cbv zeta.
  rewrite normalise_upper, normalise_lower. split; reflexivity.
Qed.

(** X11. The numeric extractor raises exactly when the value it is to
    convert (the field, or the default when the field is absent) is an
    integer outside the range of a double, and then it raises
    [OverflowError].  In every other case it returns the float that
    [float] makes of the value, or the default when the value is [None]
    or [float] rejects it. *)
Theorem safe_get_number_raises_iff (info : gmap string pyval)
    (key : string) (default : pyval) :
  let value := dict_get info key default in
  ((exists e, _safe_get_number info key default = Raise e) <->
   (exists z, value = VInt z /\ (overflow_threshold <= Z.abs z)%Z)) /\
  (forall e, _safe_get_number info key default = Raise e ->
             e = OverflowError) /\
  (forall v, _safe_get_number info key default = Ok v ->
     match py_float value with
     | Ok f => v = VFloat f
     | Raise _ => v = default
     end).
Proof.
  cbv zeta. unfold _safe_get_number, catch. cbv zeta. unbind.
  destruct (dict_get info key default) as [| b | z | f | s | l | d] eqn:Ev;
    simpl.
  1,2,4,6,7:
    (split; [split; [intros [e H]; discriminate
                    |intros [z [H _]]; discriminate]|];
     split; [intros e H; discriminate|];
     intros v H; injection H as <-; reflexivity).
  - unfold float_of_int.
    destruct (overflow_threshold <=? Z.abs z)%Z eqn:E; simpl.
    + apply Z.leb_le in E. split; [split; eauto|].
      split; [intros e H; congruence|intros v H; discriminate].
    + apply Z.leb_gt in E. split; [split|].
      * intros [e H]. discriminate.
      * intros [z' [Hz Hle]]. injection Hz as <-. lia.
      * split; [intros e H; discriminate|].
        intros v H. injection H as <-. reflexivity.
  - destruct (float_of_string s) as [f|e] eqn:Ef; simpl.
    + split; [split; [intros [e H]; discriminate
                     |intros [z [H _]]; discriminate]|].
      split; [intros e H; discriminate|].
      intros v H; injection H as <-; reflexivity.
    + apply float_of_string_raises in Ef. subst e. simpl.
      split; [split; [intros [e H]; discriminate
                     |intros [z [H _]]; discriminate]|].
      split; [intros e H; discriminate|].
      intros v H; injection H as <-; reflexivity.
Qed.

End TextSpec.

(** * Further properties of the store *)

Module StoreMoreSpec.
Import PyStr PyFloat PyVal Collector Store NormalizerSpec NumberSpec
  PipelineSpec StoreSpec.

Section Engine.

Variable text_of_number : sqlval -> string.
Variable numeric_of_text : string -> option (Z + pyfloat).

Abbreviation stored := (Store.stored text_of_number numeric_of_text).
Abbreviation stored_columns :=
  (Store.stored_columns text_of_number numeric_of_text).
Abbreviation column_affinity :=
  (Store.column_affinity text_of_number numeric_of_text).
Abbreviation insert_company_data :=
  (Store.insert_company_data text_of_number numeric_of_text).
Abbreviation insert_stock_history :=
  (Store.insert_stock_history text_of_number numeric_of_text).
Abbreviation insert_executives :=
  (Store.insert_executives text_of_number numeric_of_text).
Abbreviation insert_financial_ratios :=
  (Store.insert_financial_ratios text_of_number numeric_of_text).
Abbreviation insert_history_rows :=
  (Store.insert_history_rows text_of_number numeric_of_text).
Abbreviation insert_executive_rows :=
  (Store.insert_executive_rows text_of_number numeric_of_text).
Abbreviation history_values :=
  (Store.history_values text_of_number numeric_of_text).
Abbreviation executive_values :=
  (Store.executive_values text_of_number numeric_of_text).

(** *** Executives *)

(** The row the loop stores for one executive. *)
Definition stores_executive (r : executive_row)
    (exec_data : gmap string pyval) : Prop :=
  executive_values exec_data
  = Ok (executive_name r, executive_title r, executive_age r,
        executive_total_pay r).

Lemma insert_executive_rows_appends clock (execs : list (gmap string pyval)) :
  forall k symbol (t t' : table executive_row),
    insert_executive_rows clock k symbol execs t = Ok t' ->
    exists new,
      rows t' = (rows t ++ new)%list /\
      last_id t' = last_id t + Z.of_nat (length execs) /\
      Forall (fun r => executive_symbol r = symbol) new /\
      Forall2 stores_executive new execs.
Proof.
  induction execs as [|exec_data rest IH]; intros k symbol t t' H.
  - injection H as <-. exists []. rewrite app_nil_r.
    split; [reflexivity|]. split; [simpl; lia|].
    split; constructor.
  - cbn [Store.insert_executive_rows] in H. unbind.
    destruct (executive_values exec_data) as [[[[n ti] a] p]|e] eqn:Hv;
      [|discriminate].
    destruct (IH _ _ _ _ H) as (new & Hrows & Hid & Hsym & Hvals).
    cbn [insert_row rows last_id] in Hrows, Hid.
    eexists (_ :: new). rewrite Hrows, <- app_assoc. split; [reflexivity|].
    split; [rewrite Hid; simpl length; lia|].
    split; constructor; try assumption. reflexivity.
Qed.

(** X12. A replace of the executives that succeeds leaves in the table
    the rows of the other symbols followed by one new row per executive
    given, in order and with the values given: the rows of the symbol are
    exactly these, whatever rows it had before. *)
Theorem replace_executives_full (clock : nat -> string) (symbol : string)
    (execs : list (gmap string pyval)) (db db' : database) :
  insert_executives clock symbol execs db = (db', true) ->
  exists new,
    rows (executives db')
    = (List.filter
         (fun r => negb (sql_eqb (executive_symbol r) (SqlText symbol)))
         (rows (executives db)) ++ new)%list /\
    select_where executive_symbol (SqlText symbol) (executives db') = new /\
    length new = length execs /\
    Forall2 stores_executive new execs /\
    companies db' = companies db /\
    stock_history db' = stock_history db /\
    financial_ratios db' = financial_ratios db.
Proof.
  unfold Store.insert_executives. unbind. rewrite stored_text.
  destruct (insert_executive_rows clock 1 (SqlText symbol) execs _)
    as [t|e] eqn:Hloop; [|discriminate].
  intros H. injection H as <-. cbn [executives companies stock_history
                                     financial_ratios].
  destruct (insert_executive_rows_appends _ _ _ _ _ _ Hloop)
    as (new & Hrows & _ & Hsym & Hvals).
  cbn [delete_where rows] in Hrows.
  exists new. split; [exact Hrows|]. split.
  - unfold select_where. rewrite Hrows, List.filter_app, filter_complement.
    apply filter_all. eapply Forall_impl; [exact Hsym|].
    intros r ->. apply sql_eqb_text.
  - split; [eapply Forall2_length; exact Hvals|].
    repeat split; try reflexivity. exact Hvals.
Qed.

(** *** The symbol column of the frame *)

Lemma history_values_symbol_column label (row : gmap string pyval) v :
  history_values label (<["symbol" := v]> row) = history_values label row.
Proof.
  unfold Store.history_values, dict_get.
  rewrite !lookup_insert_ne by discriminate. reflexivity.
Qed.

Lemma insert_history_rows_symbol_column clock symbol (df : dataframe) :
  forall k sym t,
    insert_history_rows clock k sym (set_symbol_column symbol df) t
    = insert_history_rows clock k sym df t.
Proof.
  induction df as [|[label row] rest IH]; intros k sym t; [reflexivity|].
  cbn [set_symbol_column List.map Store.insert_history_rows].
  rewrite history_values_symbol_column. unbind.
  destruct (history_values label row) as [[[[[[sd so] sh] sl] sc] sv]|e];
    [|reflexivity].
  apply IH.
Qed.

(** In the model the history the collector returns is stored exactly as the frame
    of the provider would be: the [symbol] column the collector adds is
    not read by the store, which writes the symbol it is called with. *)
Theorem collected_history_stored_as_given (clock : nat -> string)
    (symbol : string) (hist fetched : dataframe) (db : database) :
  get_stock_history symbol (Ok hist) = Ok fetched ->
  insert_stock_history clock symbol fetched db
  = insert_stock_history clock symbol hist db.
Proof.
  unfold get_stock_history, catch_all. unbind.
  destruct (negb (df_empty hist)); intros H; injection H as <-;
    [|reflexivity].
  unfold Store.insert_stock_history. unbind.
  destruct (stored TEXT (VStr symbol)); [|reflexivity].
  rewrite insert_history_rows_symbol_column. reflexivity.
Qed.

(** *** Ratios *)

Definition bindable (v : pyval) : Prop := returns (bind_param v).

Lemma numeric_bindable v : numeric v -> bindable v.
Proof.
  intros [->|[f ->]]; [eexists; reflexivity|].
  destruct f; eexists; reflexivity.
Qed.

Lemma stored_returns a v : bindable v -> returns (stored a v).
Proof.
  intros [x Hx]. unfold Store.stored. unbind. rewrite Hx.
  eexists; reflexivity.
Qed.

Lemma stored_columns_returns (payload : gmap string pyval) columns :
  (forall key a d, In (key, a, d) columns ->
     bindable (dict_get payload key d)) ->
  exists fields,
    stored_columns payload columns = Ok fields /\
    length fields = length columns.
Proof.
  induction columns as [|[[key a] d] columns IH]; intros H.
  - exists []. split; reflexivity.
  - cbn [Store.stored_columns]. unbind.
    destruct (stored_returns a _ (H key a d (or_introl eq_refl))) as [x ->].
    destruct IH as (fields & -> & Hl).
    { intros k a' d' Hin. apply (H k a' d'). right. exact Hin. }
    exists (x :: fields). split; [reflexivity|]. simpl. congruence.
Qed.

Lemma ratio_entries_numeric (bag : gmap string pyval) fields : forall entries,
  ratio_entries bag fields = Ok entries ->
  Forall (fun entry : string * pyval => numeric entry.2) entries.
Proof.
  induction fields as [|[name key] fields IH]; intros entries H; simpl in H.
  - injection H as <-. constructor.
  - unbind.
    destruct (_safe_get_number bag key (VInt 0)) as [v|e] eqn:Ev;
      [|discriminate].
    destruct (ratio_entries bag fields) as [vs|e]; [|discriminate].
    injection H as <-. constructor; [|apply IH; reflexivity].
    simpl. eapply safe_get_number_numeric. exact Ev.
Qed.

Lemma fetched_ratios_numeric reply (ratios : gmap string pyval) :
  get_financial_ratios reply = Ok ratios ->
  forall name v, ratios !! name = Some v -> numeric v.
Proof.
  unfold get_financial_ratios, catch_all. unbind.
  intros H name v Hl.
  assert (ratios = ∅ \/
          exists bag entries, ratio_entries bag ratio_fields = Ok entries /\
                              ratios = list_to_map entries) as [->|Hr].
  { unfold the_bag in H.
    destruct reply as [[bag|]|e]; cbv beta iota in H;
      try (injection H as <-; left; reflexivity).
    destruct (ratio_entries bag ratio_fields) as [entries|e] eqn:He;
      injection H as <-; [right; eauto|left; reflexivity]. }
  - rewrite lookup_empty in Hl. discriminate.
  - destruct Hr as (bag & entries & He & ->).
    apply elem_of_list_to_map_2 in Hl.
    pose proof (ratio_entries_numeric _ _ _ He) as Hall.
    rewrite Forall_forall in Hall. apply (Hall (name, v)). exact Hl.
Qed.


End Engine.

Lemma replace_executives_full_witness :
  exists db' new,
    insert_executives (fun _ => "") (fun _ => None)
      (fun _ => "2024-01-03 08:00:00") "ACME"
      [ ExecutivesSpec.executive_entry [("name", VStr "Ann Lee")] ]
      empty_database = (db', true) /\
    select_where executive_symbol (SqlText "ACME") (executives db') = new /\
    length new = 1%nat.
Proof.
  eexists. 
  destruct (replace_executives_full (fun _ => "") (fun _ => None)
              (fun _ => "2024-01-03 08:00:00") "ACME"
              [ ExecutivesSpec.executive_entry [("name", VStr "Ann Lee")] ]
              empty_database _ eq_refl)
    as (new & _ & Hsel & Hlen & _).
  exists new. split; [reflexivity|]. split; [exact Hsel|exact Hlen].
Defined.

Lemma collected_history_stored_as_given_witness :
  insert_stock_history (fun _ => "") (fun _ => None)
    (fun _ => "2024-01-03 08:00:00") "ACME"
    (set_symbol_column "ACME" sample_batch) store_with_history
  = insert_stock_history (fun _ => "") (fun _ => None)
      (fun _ => "2024-01-03 08:00:00") "ACME" sample_batch
      store_with_history.
Proof.
  apply (collected_history_stored_as_given (fun _ => "") (fun _ => None)
           (fun _ => "2024-01-03 08:00:00") "ACME" sample_batch).
  reflexivity.
Defined.


End StoreMoreSpec.

(** ** database_manager.py: the count query *)

Module StoreQueries.
Import Store.

(** The [SELECT COUNT] of all rows of [companies]. *)
Definition get_company_count (db : database) : Z :=
  Z.of_nat (length (rows (companies db))).

End StoreQueries.

Module CompaniesSpec.
Import PyStr PyFloat PyVal Collector Store StoreQueries NormalizerSpec
  NumberSpec PipelineSpec StoreSpec StoreMoreSpec.

Section Engine.

Variable text_of_number : sqlval -> string.
Variable numeric_of_text : string -> option (Z + pyfloat).

Abbreviation stored := (Store.stored text_of_number numeric_of_text).
Abbreviation stored_columns :=
  (Store.stored_columns text_of_number numeric_of_text).
Abbreviation column_affinity :=
  (Store.column_affinity text_of_number numeric_of_text).
Abbreviation insert_company_data :=
  (Store.insert_company_data text_of_number numeric_of_text).

(** *** When an upsert is accepted *)

Lemma integer_if_exact_not_null f : integer_if_exact f <> SqlNull.
Proof.
  unfold integer_if_exact. destruct f as [q| |]; try discriminate.
  destruct (_ && _); discriminate.
Qed.

(** No conversion makes a NULL of a value or a value of NULL. *)
Lemma column_affinity_null a x : column_affinity a x = SqlNull <-> x = SqlNull.
Proof.
  split; [|intros ->; destruct a; reflexivity].
  destruct a, x; simpl; try discriminate; try reflexivity;
    try (intros H; exfalso; revert H; apply integer_if_exact_not_null).
  - destruct (numeric_of_text s) as [[z|f]|]; discriminate.
  - destruct (numeric_of_text s) as [[z|f]|]; try discriminate.
    intros H; exfalso; revert H; apply integer_if_exact_not_null.
Qed.

Lemma stored_returns_iff a v : returns (stored a v) <-> bindable v.
Proof.
  unfold Store.stored, bindable, returns. unbind.
  destruct (bind_param v) as [x|e]; split; intros [y H];
    try discriminate; eexists; reflexivity.
Qed.

Lemma stored_columns_returns_iff (payload : gmap string pyval) columns :
  returns (stored_columns payload columns) <->
  Forall (fun column : string * affinity * pyval =>
            bindable (dict_get payload column.1.1 column.2))
    columns.
Proof.
  induction columns as [|[[key a] d] columns IH].
  - split; [constructor|]. intros _. eexists; reflexivity.
  - cbn [Store.stored_columns]. rewrite Forall_cons, <- IH,
      <- (stored_returns_iff a). unfold returns. unbind. simpl.
    destruct (stored a (dict_get payload key d)) as [x|e].
    + destruct (stored_columns payload columns) as [xs|e].
      * split; [eauto|]. intros _. eexists; reflexivity.
      * split; [intros [y H]; discriminate|intros [_ [y H]]; discriminate].
    + split; [intros [y H]; discriminate|intros [[y H] _]; discriminate].
Qed.

(** The value bound for the symbol is a value, not NULL. *)
Definition symbol_given (payload : gmap string pyval) : Prop :=
  exists x, bind_param (dict_get payload "symbol" VNone) = Ok x /\
            x <> SqlNull.


(** *** Rows of the other symbols, and the count *)

Lemma length_filter_split {A} (p : A -> bool) (l : list A) :
  (length (List.filter p l) + length (List.filter (fun a => negb (p a)) l)
   = length l)%nat.
Proof.
  induction l as [|a l IH]; simpl; [reflexivity|].
  destruct (p a); simpl; lia.
Qed.

Lemma length_filter_filter {A} (p q : A -> bool) (l : list A) :
  (length (List.filter p (List.filter q l)) <= length (List.filter p l))%nat.
Proof.
  induction l as [|a l IH]; simpl; [lia|].
  destruct (q a), (p a) eqn:E; simpl; rewrite ?E; simpl; lia.
Qed.

Lemma sql_eqb_text_inv s x : sql_eqb (SqlText s) x = true -> x = SqlText s.
Proof.
  destruct x; simpl; try discriminate.
  intros H. apply String.eqb_eq in H. congruence.
Qed.

Lemma sql_eqb_text_sym x s : sql_eqb x (SqlText s) = sql_eqb (SqlText s) x.
Proof. destruct x; simpl; try reflexivity. apply String.eqb_sym. Qed.

Lemma filter_filter_other {A} (symbol_of : A -> sqlval) s x (l : list A) :
  sql_eqb (SqlText s) x = false ->
  List.filter (fun r => sql_eqb (symbol_of r) x)
    (List.filter (fun r => negb (sql_eqb (symbol_of r) (SqlText s))) l)
  = List.filter (fun r => sql_eqb (symbol_of r) x) l.
Proof.
  intros Hne. induction l as [|a l IH]; simpl; [reflexivity|].
  destruct (sql_eqb (symbol_of a) (SqlText s)) eqn:E1; simpl.
  - rewrite sql_eqb_text_sym in E1. apply sql_eqb_text_inv in E1.
    rewrite E1, Hne. exact IH.
  - destruct (sql_eqb (symbol_of a) x); [f_equal|]; exact IH.
Qed.

(** What an accepted upsert makes of the companies table. *)
Lemma upsert_accepted_rows now created_at (payload : gmap string pyval)
    (db db' : database) :
  insert_company_data now created_at payload db = (db', true) ->
  exists s fields,
    stored TEXT (dict_get payload "symbol" VNone) = Ok (SqlText s) /\
    rows (companies db')
    = (List.filter (fun r => negb (sql_eqb (company_symbol r) (SqlText s)))
         (rows (companies db))
       ++ [ {| company_id := last_id (companies db) + 1;
               company_symbol := SqlText s; company_fields := fields;
               company_created_at := created_at |} ])%list /\
    last_id (companies db') = last_id (companies db) + 1 /\
    stock_history db' = stock_history db /\
    executives db' = executives db /\
    financial_ratios db' = financial_ratios db.
Proof.
  unfold Store.insert_company_data. unbind.
  destruct (stored TEXT (dict_get payload "symbol" VNone)) as [symbol|e]
    eqn:Hsym; [|discriminate].
  destruct (stored_columns payload (company_columns now)) as [fields|e];
    [|discriminate].
  destruct (stored_text_column _ _ _ _ Hsym) as [->|[s ->]]; [discriminate|].
  cbn [insert_or_replace_company]. intros H. injection H as <-.
  exists s, fields. repeat split; reflexivity.
Qed.

(** X15. After an accepted upsert the company count is the count before,
    plus one, minus the rows the symbol had before: a new symbol adds a
    row, a symbol stored once keeps the count, and the rows of every
    other symbol are the same as before. *)
Theorem upsert_count_and_others (now created_at : string)
    (payload : gmap string pyval) (db db' : database) :
  insert_company_data now created_at payload db = (db', true) ->
  exists s,
    stored TEXT (dict_get payload "symbol" VNone) = Ok (SqlText s) /\
    get_company_count db'
    = get_company_count db + 1
      - Z.of_nat (length (select_where company_symbol (SqlText s)
                            (companies db))) /\
    (forall x, sql_eqb (SqlText s) x = false ->
       select_where company_symbol x (companies db')
       = select_where company_symbol x (companies db)).
Proof.
  intros H.
  destruct (upsert_accepted_rows _ _ _ _ _ H)
    as (s & fields & Hs & Hrows & _).
  exists s. split; [exact Hs|]. split.
  - unfold get_company_count, select_where. rewrite Hrows, length_app.
    pose proof (length_filter_split
                  (fun r => sql_eqb (company_symbol r) (SqlText s))
                  (rows (companies db))) as Hl.
    simpl length. lia.
  - intros x Hx. unfold select_where. rewrite Hrows, List.filter_app.
    rewrite filter_filter_other by exact Hx.
    cbn [List.filter company_symbol]. rewrite Hx. apply app_nil_r.
Qed.

(** No symbol has more than one row. *)
Definition unique_symbols (db : database) : Prop :=
  forall x, (length (select_where company_symbol x (companies db)) <= 1)%nat.

(** X16. The upsert keeps the companies table at one row per symbol at
    most: if no symbol has two rows before the call, none has after it,
    whether the call is accepted or refused. *)
Theorem upsert_keeps_symbols_unique (now created_at : string)
    (payload : gmap string pyval) (db : database) :
  unique_symbols db ->
  unique_symbols (insert_company_data now created_at payload db).1.
Proof.
  intros Hu.
  destruct (insert_company_data now created_at payload db) as [db' ok] eqn:H.
  destruct ok.
  - destruct (upsert_accepted_rows _ _ _ _ _ H)
      as (s & fields & _ & Hrows & _).
    intros x. unfold select_where. simpl. rewrite Hrows, List.filter_app.
    cbn [List.filter company_symbol].
    destruct (sql_eqb (SqlText s) x) eqn:Hx.
    + apply sql_eqb_text_inv in Hx. subst x.
      rewrite filter_complement. simpl. lia.
    + rewrite app_nil_r.
      etransitivity; [apply length_filter_filter|]. apply (Hu x).
  - assert (db' = db) as ->; [|exact Hu].
    unfold Store.insert_company_data in H.
    destruct (_ ≫= _) in H; congruence.
Qed.

End Engine.

Lemma upsert_count_and_others_witness :
  exists s,
    Store.stored (fun _ => "") (fun _ => None) TEXT
      (dict_get sample_payload "symbol" VNone) = Ok (SqlText s) /\
    get_company_count sample_store
    = get_company_count empty_database + 1
      - Z.of_nat (length (select_where company_symbol (SqlText s)
                            (companies empty_database))) /\
    (forall x, sql_eqb (SqlText s) x = false ->
       select_where company_symbol x (companies sample_store)
       = select_where company_symbol x (companies empty_database)).
Proof.
  apply (upsert_count_and_others (fun _ => "") (fun _ => None)
           "2024-01-02 03:04:06" "2024-01-02 08:04:06" sample_payload
           empty_database sample_store).
  vm_compute. reflexivity.
Defined.

Lemma upsert_keeps_symbols_unique_witness :
  unique_symbols
    (Store.insert_company_data (fun _ => "") (fun _ => None)
       "2024-02-02 03:04:06" "2024-02-02 08:04:06" sample_payload
       sample_store).1.
Proof.
  apply upsert_keeps_symbols_unique.
  intros x. unfold select_where. vm_compute rows.
  cbn [List.filter company_symbol].
  destruct (sql_eqb (SqlText "ACME") x); simpl; lia.
Defined.

End CompaniesSpec.

From stdpp Require Import sorting.

Local Open Scope Z_scope.
Local Open Scope string_scope.

Module KeysSpec.
Import PyStr PyFloat PyVal Collector Store NormalizerSpec StoreSpec
  StoreMoreSpec.

(** The primary key of a table: the ids of its rows increase strictly, so
    no two rows share one, and none is beyond the last id given out. *)
Definition keys_ok {R} (id_of : R -> Z) (t : table R) : Prop :=
  StronglySorted Z.lt (List.map id_of (rows t)) /\
  Forall (fun r => (id_of r <= last_id t)%Z) (rows t).

Definition database_keys_ok (db : database) : Prop :=
  keys_ok company_id (companies db) /\
  keys_ok history_id (stock_history db) /\
  keys_ok executive_id (executives db) /\
  keys_ok ratios_id (financial_ratios db).

Lemma sorted_map_filter {R} (id_of : R -> Z) (p : R -> bool) (l : list R) :
  StronglySorted Z.lt (List.map id_of l) ->
  StronglySorted Z.lt (List.map id_of (List.filter p l)).
Proof.
  induction l as [|r l IH]; simpl; [constructor|].
  rewrite StronglySorted_cons. intros [Hr Hl].
  destruct (p r); simpl; [|apply IH; exact Hl].
  rewrite StronglySorted_cons. split; [|apply IH; exact Hl].
  rewrite Forall_forall in *. intros x Hx. apply Hr.
  apply list_elem_of_fmap in Hx as [y [-> Hy]].
  apply list_elem_of_fmap. exists y. split; [reflexivity|].
  apply list_elem_of_In. apply list_elem_of_In in Hy.
  apply List.filter_In in Hy. tauto.
Qed.

Lemma forall_filter {R} (P : R -> Prop) (p : R -> bool) (l : list R) :
  Forall P l -> Forall P (List.filter p l).
Proof.
  induction 1 as [|r l Hr _ IH]; simpl; [constructor|].
  destruct (p r); [constructor; assumption|exact IH].
Qed.

Lemma keys_ok_delete {R} (id_of : R -> Z) (symbol_of : R -> sqlval) symbol
    (t : table R) :
  keys_ok id_of t -> keys_ok id_of (delete_where symbol_of symbol t).
Proof.
  intros [Hs Hb]. split; cbn [delete_where rows last_id].
  - apply sorted_map_filter. exact Hs.
  - apply forall_filter. exact Hb.
Qed.

Lemma keys_ok_insert {R} (id_of : R -> Z) (make : Z -> R) (t : table R) :
  (forall id, id_of (make id) = id) ->
  keys_ok id_of t -> keys_ok id_of (insert_row make t).
Proof.
  intros Hm [Hs Hb]. split; cbn [insert_row rows last_id].
  - rewrite List.map_app. apply StronglySorted_app. split; [|split].
    + intros x1 x2 H1 H2. simpl in H2. apply list_elem_of_singleton in H2.
      subst x2. rewrite Hm.
      apply list_elem_of_fmap in H1 as [r [-> Hr]].
      rewrite Forall_forall in Hb. specialize (Hb r Hr). lia.
    + exact Hs.
    + simpl. repeat constructor.
  - apply Forall_app. split.
    + eapply Forall_impl; [exact Hb|]. intros r Hr. simpl in Hr. lia.
    + constructor; [rewrite Hm; lia|constructor].
Qed.

Section Engine.

Variable text_of_number : sqlval -> string.
Variable numeric_of_text : string -> option (Z + pyfloat).

Abbreviation insert_company_data :=
  (Store.insert_company_data text_of_number numeric_of_text).
Abbreviation insert_stock_history :=
  (Store.insert_stock_history text_of_number numeric_of_text).
Abbreviation insert_executives :=
  (Store.insert_executives text_of_number numeric_of_text).
Abbreviation insert_financial_ratios :=
  (Store.insert_financial_ratios text_of_number numeric_of_text).
Abbreviation insert_history_rows :=
  (Store.insert_history_rows text_of_number numeric_of_text).
Abbreviation insert_executive_rows :=
  (Store.insert_executive_rows text_of_number numeric_of_text).
Abbreviation history_values :=
  (Store.history_values text_of_number numeric_of_text).
Abbreviation executive_values :=
  (Store.executive_values text_of_number numeric_of_text).

Lemma history_loop_keys clock (df : dataframe) : forall k symbol t t',
  insert_history_rows clock k symbol df t = Ok t' ->
  keys_ok history_id t -> keys_ok history_id t'.
Proof.
  induction df as [|[label row] rest IH]; intros k symbol t t' H Hk.
  - injection H as <-. exact Hk.
  - cbn [Store.insert_history_rows] in H. unbind.
    destruct (history_values label row) as [[[[[[sd so] sh] sl] sc] sv]|e];
      [|discriminate].
    eapply IH; [exact H|]. apply keys_ok_insert; [reflexivity|exact Hk].
Qed.

Lemma executive_loop_keys clock (execs : list (gmap string pyval)) :
  forall k symbol t t',
    insert_executive_rows clock k symbol execs t = Ok t' ->
    keys_ok executive_id t -> keys_ok executive_id t'.
Proof.
  induction execs as [|exec_data rest IH]; intros k symbol t t' H Hk.
  - injection H as <-. exact Hk.
  - cbn [Store.insert_executive_rows] in H. unbind.
    destruct (executive_values exec_data) as [[[[n ti] a] p]|e];
      [|discriminate].
    eapply IH; [exact H|]. apply keys_ok_insert; [reflexivity|exact Hk].
Qed.

Lemma company_write_keys now created_at (payload : gmap string pyval) db :
  keys_ok company_id (companies db) ->
  keys_ok company_id (companies (insert_company_data now created_at payload db).1).
Proof.
  intros Hc. unfold Store.insert_company_data. unbind.
  destruct (Store.stored _ _ TEXT _) as [sym|e]; [|exact Hc].
  destruct (Store.stored_columns _ _ _ _) as [fields|e]; [|exact Hc].
  destruct sym; cbn [insert_or_replace_company fst companies];
    try exact Hc;
    (apply keys_ok_insert; [reflexivity|apply keys_ok_delete; exact Hc]).
Qed.

Lemma history_write_keys clock symbol (stock_df : dataframe) db :
  keys_ok history_id (stock_history db) ->
  keys_ok history_id
    (stock_history (insert_stock_history clock symbol stock_df db).1).
Proof.
  intros Hh. unfold Store.insert_stock_history. unbind.
  destruct (Store.stored _ _ TEXT _) as [sym|e]; [|exact Hh].
  destruct (insert_history_rows _ _ _ _ _) as [t|e] eqn:Hl; [|exact Hh].
  cbn [fst stock_history]. eapply history_loop_keys; [exact Hl|].
  apply keys_ok_delete. exact Hh.
Qed.

Lemma executives_write_keys clock symbol
    (execs : list (gmap string pyval)) db :
  keys_ok executive_id (executives db) ->
  keys_ok executive_id (executives (insert_executives clock symbol execs db).1).
Proof.
  intros He. unfold Store.insert_executives. unbind.
  destruct (Store.stored _ _ TEXT _) as [sym|e]; [|exact He].
  destruct (insert_executive_rows _ _ _ _ _) as [t|e] eqn:Hl; [|exact He].
  cbn [fst executives]. eapply executive_loop_keys; [exact Hl|].
  apply keys_ok_delete. exact He.
Qed.

Lemma ratios_write_keys created_at symbol (ratios : gmap string pyval) db :
  keys_ok ratios_id (financial_ratios db) ->
  keys_ok ratios_id
    (financial_ratios (insert_financial_ratios created_at symbol ratios db).1).
Proof.
  intros Hr. unfold Store.insert_financial_ratios. unbind.
  destruct (Store.stored _ _ TEXT _) as [sym|e]; [|exact Hr].
  destruct (Store.stored_columns _ _ _ _) as [fields|e]; [|exact Hr].
  cbn [fst financial_ratios].
  apply keys_ok_insert; [reflexivity|apply keys_ok_delete; exact Hr].
Qed.

(** Each write changes its own table only. *)
Lemma company_write_frame now created_at (payload : gmap string pyval) db :
  let db' := (insert_company_data now created_at payload db).1 in
  stock_history db' = stock_history db /\ executives db' = executives db /\
  financial_ratios db' = financial_ratios db.
Proof.
  cbv zeta. unfold Store.insert_company_data.
  destruct (_ ≫= _); repeat split; reflexivity.
Qed.

Lemma history_write_frame clock symbol (stock_df : dataframe) db :
  let db' := (insert_stock_history clock symbol stock_df db).1 in
  companies db' = companies db /\ executives db' = executives db /\
  financial_ratios db' = financial_ratios db.
Proof.
  cbv zeta. unfold Store.insert_stock_history.
  destruct (_ ≫= _); repeat split; reflexivity.
Qed.

Lemma executives_write_frame clock symbol
    (execs : list (gmap string pyval)) db :
  let db' := (insert_executives clock symbol execs db).1 in
  companies db' = companies db /\ stock_history db' = stock_history db /\
  financial_ratios db' = financial_ratios db.
Proof.
  cbv zeta. unfold Store.insert_executives.
  destruct (_ ≫= _); repeat split; reflexivity.
Qed.

Lemma ratios_write_frame created_at symbol (ratios : gmap string pyval) db :
  let db' := (insert_financial_ratios created_at symbol ratios db).1 in
  companies db' = companies db /\ stock_history db' = stock_history db /\
  executives db' = executives db.
Proof.
  cbv zeta. unfold Store.insert_financial_ratios.
  destruct (_ ≫= _); repeat split; reflexivity.
Qed.


End Engine.

Lemma store_with_history_keys : database_keys_ok store_with_history.
Proof.
  unfold database_keys_ok, keys_ok, store_with_history. simpl.
  repeat split; apply (bool_decide_unpack _); vm_compute; exact I.
Qed.


End KeysSpec.
